(** * Fraud analysis: feature derivation and SQL reports

    A shallow embedding of [fraud_analysis.py]: the columns that
    [load_data] derives with pandas, and the SQLite queries of section 2
    of the script, followed by the properties of the derivation and of
    the reports.

    Numbers.  Amounts are float64 in the script; here they are exact
    rationals ([Q]), so comparisons against bin edges are the ones the
    script makes, while sums and averages are the exact ones (float
    round-off is not modelled).  Timestamps are datetime64[ns] values:
    nanoseconds since the epoch, as [Z]. *)

From Stdlib Require Import ZArith QArith Qround Lqa Ascii String List Bool Lia.
From Stdlib Require Import Permutation Sorted.
Import ListNotations.

Local Open Scope Z_scope.

(** ** The pandas operations used by [load_data] *)

Module Pandas.

(** A bin edge of [pd.cut]: a number or [float("inf")]. *)
Inductive edge : Type :=
| Fin (q : Q)
| PosInf.

(** [e < x], for a finite [x]. *)
Definition edge_ltb (e : edge) (x : Q) : bool :=
  match e with
  | Fin q => negb (Qle_bool x q)
  | PosInf => false
  end.

(** [bins.searchsorted(x, side="left")] on increasing [bins]: the index
    [i] with [bins[i-1] < x <= bins[i]], that is the number of edges
    strictly below [x]. *)
Definition searchsorted_left (bins : list edge) (x : Q) : nat :=
  length (filter (fun e => edge_ltb e x) bins).

(** [pd.cut(x, bins=bins, labels=labels)] with the defaults
    [right=True, include_lowest=False]: the position [ids] comes from
    [searchsorted] with [side="left"]; [ids == 0] and
    [ids == len(bins)] are NaN; otherwise the label is
    [labels[ids - 1]]. *)
Definition cut (bins : list edge) (labels : list string) (x : Q)
  : option string :=
  let ids := searchsorted_left bins x in
  if (ids =? 0)%nat || (ids =? length bins)%nat then None
  else nth_error labels (ids - 1).

Definition ns_per_hour : Z := 3600000000000.
Definition ns_per_day : Z := 86400000000000.

(** [Series.dt.hour] of a timestamp. *)
Definition dt_hour (ts : Z) : Z := (ts / ns_per_hour) mod 24.

(** [Series.dt.dayofweek] of a timestamp, 0 = Monday; the epoch was a
    Thursday. *)
Definition dt_dayofweek (ts : Z) : Z := (ts / ns_per_day + 3) mod 7.

(** Year and month of the calendar date of a timestamp (proleptic
    Gregorian calendar), from the days since the epoch. *)
Definition year_month (ts : Z) : Z * Z :=
  let z := ts / ns_per_day + 719468 in
  let era := z / 146097 in
  let doe := z - era * 146097 in
  let yoe := (doe - doe / 1460 + doe / 36524 - doe / 146096) / 365 in
  let doy := doe - (365 * yoe + yoe / 4 - yoe / 100) in
  let mp := (5 * doy + 2) / 153 in
  let m := if mp <? 10 then mp + 3 else mp - 9 in
  (yoe + era * 400 + (if m <=? 2 then 1 else 0), m).

Definition digit (n : Z) : ascii := ascii_of_nat (48 + Z.to_nat (n mod 10)).

(** [Series.dt.to_period("M").astype(str)]: the label ["YYYY-MM"]. *)
Definition to_period_M_str (ts : Z) : string :=
  let (y, m) := year_month ts in
  String (digit (y / 1000)) (String (digit (y / 100)) (String (digit (y / 10))
    (String (digit y) (String "-"%char (String (digit (m / 10))
      (String (digit m) EmptyString)))))).

(** [Series.dt.days] of a timedelta: the day component, which pandas
    normalises downwards (minus one hour has [days = -1]). *)
Definition dt_days (delta : Z) : Z := delta / ns_per_day.

(** [Series.astype(int)] on a float column: the fractional part is
    dropped, towards zero. *)
Definition astype_int (q : Q) : Z := Z.quot (Qnum q) (Zpos (Qden q)).

End Pandas.

(** ** The table [transactions] *)

(** The columns of the CSV file that the queries read. *)
Record Transaction : Type := mkTransaction {
  trans_date_trans_time : Z;
  cc_num : Z;
  merchant : string;
  category : string;
  amt : Q;
  is_fraud : Z;
  dob : Z;
  state : string;
  gender : string;
  city_pop : Z
}.

(** A row of the SQLite table: the CSV columns and the derived ones. *)
Record Row : Type := mkRow {
  txn : Transaction;
  txn_hour : Z;
  txn_day_of_week : Z;
  txn_month : string;
  age : Z;
  age_group : option string;
  amount_bucket : option string;
  city_size : option string
}.

Definition age_bins : list Pandas.edge :=
  map (fun z => Pandas.Fin (inject_Z z)) [0; 25; 35; 45; 55; 65; 120].
Definition age_labels : list string :=
  ["18-24"; "25-34"; "35-44"; "45-54"; "55-64"; "65+"]%string.

Definition amount_bins : list Pandas.edge :=
  map (fun z => Pandas.Fin (inject_Z z)) [0; 100; 500; 1000] ++ [Pandas.PosInf].
Definition amount_labels : list string :=
  ["0-100"; "100-500"; "500-1000"; "1000+"]%string.

Definition city_bins : list Pandas.edge :=
  map (fun z => Pandas.Fin (inject_Z z)) [0; 10000; 100000; 500000]
  ++ [Pandas.PosInf].
Definition city_labels : list string :=
  ["Rural (<10K)"; "Small (10K-100K)"; "Mid (100K-500K)"; "Large (500K+)"]%string.

(** [((trans_date_trans_time - dob).dt.days / 365.25).astype(int)] *)
Definition derive_age (ts born : Z) : Z :=
  Pandas.astype_int (inject_Z (Pandas.dt_days (ts - born)) / (36525 # 100)).

Definition cut_age_group (a : Z) : option string :=
  Pandas.cut age_bins age_labels (inject_Z a).
Definition cut_amount_bucket (a : Q) : option string :=
  Pandas.cut amount_bins amount_labels a.
Definition cut_city_size (pop : Z) : option string :=
  Pandas.cut city_bins city_labels (inject_Z pop).

(** The derived columns of one CSV row. *)
Definition derive (t : Transaction) : Row :=
  let a := derive_age (trans_date_trans_time t) (dob t) in
  {| txn := t;
     txn_hour := Pandas.dt_hour (trans_date_trans_time t);
     txn_day_of_week := Pandas.dt_dayofweek (trans_date_trans_time t);
     txn_month := Pandas.to_period_M_str (trans_date_trans_time t);
     age := a;
     age_group := cut_age_group a;
     amount_bucket := cut_amount_bucket (amt t);
     city_size := cut_city_size (city_pop t) |}.

(** The table that [load_data] builds from the rows of the file: every
    row gets its derived columns and is stored, in order.  The call as a
    whole, which raises on a file without rows, is [load_data_call]
    below. *)
Definition load_data (df : list Transaction) : list Row := map derive df.

(** ** The SQL fragment that the queries use *)

Module Sql.

(** [COUNT( * )] *)
Definition COUNT {A : Type} (rows : list A) : Z := Z.of_nat (length rows).

(** Aggregates skip NULL values. *)
Fixpoint non_null {A : Type} (xs : list (option A)) : list A :=
  match xs with
  | [] => []
  | Some x :: xs' => x :: non_null xs'
  | None :: xs' => non_null xs'
  end.

Definition Zsum (xs : list Z) : Z := fold_left Z.add xs 0.
Definition Qsum (xs : list Q) : Q := fold_left Qplus xs 0%Q.

(** [SUM(x)]: NULL when no value is left to add. *)
Definition SUM_int (xs : list (option Z)) : option Z :=
  match non_null xs with
  | [] => None
  | v => Some (Zsum v)
  end.

Definition SUM_real (xs : list (option Q)) : option Q :=
  match non_null xs with
  | [] => None
  | v => Some (Qsum v)
  end.

(** [AVG(x)]: the sum of the non-NULL values over their number.  The
    quotient is the exact one; SQLite divides floats, and its rounded
    average can be a cent away from the rounded exact one, so the
    properties below compare an average with another average, not with a
    number. *)
Definition AVG (xs : list (option Q)) : option Q :=
  match non_null xs with
  | [] => None
  | v => Some (Qsum v / inject_Z (COUNT v))%Q
  end.

(** [MIN(x)] and [MAX(x)]. *)
Definition MIN (xs : list (option Z)) : option Z :=
  match non_null xs with
  | [] => None
  | x :: v => Some (fold_left Z.min v x)
  end.

Definition MAX (xs : list (option Z)) : option Z :=
  match non_null xs with
  | [] => None
  | x :: v => Some (fold_left Z.max v x)
  end.

(** Rounding to the nearest integer, halves away from zero. *)
Definition round_half_away (q : Q) : Z :=
  if Qle_bool 0 q then Qfloor (q + (1 # 2)) else Qceiling (q - (1 # 2)).

Definition round2 (q : Q) : Q :=
  Qred (inject_Z (round_half_away (q * 100)) / 100).

(** [ROUND(x, 2)]; NULL stays NULL. *)
Definition ROUND2 (x : option Q) : option Q := option_map round2 x.

(** An integer used in real arithmetic ([100.0 * n]). *)
Definition real (n : option Z) : option Q := option_map inject_Z n.

(** [a * b] and [a / b]: NULL operands give NULL, and so does a
    division by zero. *)
Definition mul (a b : option Q) : option Q :=
  match a, b with
  | Some x, Some y => Some (x * y)%Q
  | _, _ => None
  end.

Definition div (a b : option Q) : option Q :=
  match a, b with
  | Some x, Some y => if Qeq_bool y 0 then None else Some (x / y)%Q
  | _, _ => None
  end.

(** [n >= k] in a HAVING clause: NULL is not true. *)
Definition ge_int (n : option Z) (k : Z) : bool :=
  match n with
  | Some v => k <=? v
  | None => false
  end.

(** [x IS NOT NULL] *)
Definition is_not_null {A : Type} (x : option A) : bool :=
  match x with
  | Some _ => true
  | None => false
  end.

(** Equality of grouping keys: NULLs fall into one group. *)
Definition key_eqb {A : Type} (eqb : A -> A -> bool) (x y : option A) : bool :=
  match x, y with
  | Some a, Some b => eqb a b
  | None, None => true
  | _, _ => false
  end.

Definition pair_eqb {A B : Type} (eqa : A -> A -> bool) (eqb : B -> B -> bool)
  (x y : A * B) : bool :=
  eqa (fst x) (fst y) && eqb (snd x) (snd y).

(** The distinct values of a list, in order of first occurrence. *)
Fixpoint distinct {K : Type} (eqb : K -> K -> bool) (ks : list K) : list K :=
  match ks with
  | [] => []
  | k :: ks' => k :: filter (fun k' => negb (eqb k k')) (distinct eqb ks')
  end.

(** [GROUP BY key]: one group for each distinct key value, holding the
    rows with that key in table order.  SQL leaves the order of the
    groups open; they are listed by first occurrence. *)
Definition group_by {A K : Type} (eqb : K -> K -> bool) (key : A -> K)
  (rows : list A) : list (K * list A) :=
  map (fun k => (k, filter (fun r => eqb k (key r)) rows))
      (distinct eqb (map key rows)).

(** [ORDER BY]: a stable insertion sort; [before x y] tells that [x]
    need not come after [y]. *)
Fixpoint insert_row {A : Type} (before : A -> A -> bool) (x : A) (l : list A)
  : list A :=
  match l with
  | [] => [x]
  | y :: l' => if before x y then x :: l else y :: insert_row before x l'
  end.

Definition order_by {A : Type} (before : A -> A -> bool) (l : list A) : list A :=
  fold_right (insert_row before) [] l.

(** Comparison of a nullable real column; NULL sorts below every value. *)
Definition real_leb (x y : option Q) : bool :=
  match x, y with
  | None, _ => true
  | Some _, None => false
  | Some a, Some b => Qle_bool a b
  end.

(** Comparison of a nullable integer column. *)
Definition int_leb (x y : option Z) : bool :=
  match x, y with
  | None, _ => true
  | Some _, None => false
  | Some a, Some b => a <=? b
  end.

(** [LIMIT n]; a negative [n] means no limit. *)
Definition LIMIT {A : Type} (n : Z) (l : list A) : list A :=
  if n <? 0 then l else firstn (Z.to_nat n) l.

End Sql.

(** ** The result rows of the reports *)

Module Overview.
Record row : Type := mk {
  total_txns : Z;
  fraud_count : option Z;
  fraud_rate_pct : option Q;
  avg_amount : option Q;
  total_fraud_amount : option Q
}.
End Overview.

Module ByCategory.
Record row : Type := mk {
  category : string;
  total_txns : Z;
  fraud_txns : option Z;
  fraud_rate_pct : option Q;
  avg_fraud_amt : option Q
}.
End ByCategory.

(** The shape shared by the reports by hour, day of week, amount
    bucket, age group and city size; [key] is the grouping column. *)
Module Rate.
Record row (K : Type) : Type := mk {
  key : K;
  total_txns : Z;
  fraud_txns : option Z;
  fraud_rate_pct : option Q
}.
Arguments mk {K}.
Arguments key {K}.
Arguments total_txns {K}.
Arguments fraud_txns {K}.
Arguments fraud_rate_pct {K}.
End Rate.

Module RepeatFraudCards.
Record row : Type := mk {
  cc_num : Z;
  fraud_count : Z;
  total_fraud_amount : option Q;
  first_fraud : option Z;
  last_fraud : option Z
}.
End RepeatFraudCards.

Module HighRiskMerchants.
Record row : Type := mk {
  merchant : string;
  category : string;
  total_txns : Z;
  fraud_txns : option Z;
  fraud_rate_pct : option Q;
  total_fraud_amount : option Q
}.
End HighRiskMerchants.

(** ** The queries of [fraud_analysis.py] *)

(** Column expressions that several queries share. *)

(** [SUM(is_fraud)] *)
Definition sum_is_fraud (g : list Row) : option Z :=
  Sql.SUM_int (map (fun r => Some (is_fraud (txn r))) g).

(** [ROUND(100.0 * SUM(is_fraud) / COUNT( * ), 2)] *)
Definition rate_pct (g : list Row) : option Q :=
  Sql.ROUND2
    (Sql.div (Sql.mul (Some 100%Q) (Sql.real (sum_is_fraud g)))
             (Some (inject_Z (Sql.COUNT g)))).

(** [CASE WHEN is_fraud = 1 THEN amt END] *)
Definition case_fraud_amt (r : Row) : option Q :=
  if is_fraud (txn r) =? 1 then Some (amt (txn r)) else None.

(** [CASE WHEN is_fraud = 1 THEN amt ELSE 0 END] *)
Definition case_fraud_amt_else_0 (r : Row) : option Q :=
  if is_fraud (txn r) =? 1 then Some (amt (txn r)) else Some 0%Q.

(** The query of [fraud_overview]; without GROUP BY an aggregate query
    returns one row, whatever the table holds. *)
Definition fraud_overview (t : list Row) : Overview.row :=
  {| Overview.total_txns := Sql.COUNT t;
     Overview.fraud_count := sum_is_fraud t;
     Overview.fraud_rate_pct := rate_pct t;
     Overview.avg_amount :=
       Sql.ROUND2 (Sql.AVG (map (fun r => Some (amt (txn r))) t));
     Overview.total_fraud_amount :=
       Sql.ROUND2 (Sql.SUM_real (map case_fraud_amt_else_0 t)) |}.

Definition category_row (kg : string * list Row) : ByCategory.row :=
  let (k, g) := kg in
  {| ByCategory.category := k;
     ByCategory.total_txns := Sql.COUNT g;
     ByCategory.fraud_txns := sum_is_fraud g;
     ByCategory.fraud_rate_pct := rate_pct g;
     ByCategory.avg_fraud_amt := Sql.ROUND2 (Sql.AVG (map case_fraud_amt g)) |}.

Definition fraud_by_category (t : list Row) : list ByCategory.row :=
  Sql.order_by
    (fun a b => Sql.real_leb (ByCategory.fraud_rate_pct b)
                             (ByCategory.fraud_rate_pct a))
    (map category_row (Sql.group_by String.eqb (fun r => category (txn r)) t)).

(** The select list [key, COUNT( * ), SUM(is_fraud), ROUND(...)] of one
    group. *)
Definition rate_row {K : Type} (kg : K * list Row) : Rate.row K :=
  let (k, g) := kg in
  {| Rate.key := k;
     Rate.total_txns := Sql.COUNT g;
     Rate.fraud_txns := sum_is_fraud g;
     Rate.fraud_rate_pct := rate_pct g |}.

(** [ORDER BY fraud_rate_pct DESC] *)
Definition by_rate_desc {K : Type} (a b : Rate.row K) : bool :=
  Sql.real_leb (Rate.fraud_rate_pct b) (Rate.fraud_rate_pct a).

(** [ORDER BY key] on an integer column. *)
Definition by_key_asc (a b : Rate.row Z) : bool :=
  Rate.key a <=? Rate.key b.

Definition fraud_by_hour (t : list Row) : list (Rate.row Z) :=
  Sql.order_by by_key_asc (map rate_row (Sql.group_by Z.eqb txn_hour t)).

Definition fraud_by_day_of_week (t : list Row) : list (Rate.row Z) :=
  Sql.order_by by_key_asc (map rate_row (Sql.group_by Z.eqb txn_day_of_week t)).

Definition fraud_by_amount_bucket (t : list Row)
  : list (Rate.row (option string)) :=
  Sql.order_by by_rate_desc
    (map rate_row (Sql.group_by (Sql.key_eqb String.eqb) amount_bucket t)).

(** [fraud_by_state(conn, n)]; the script calls it with [n = 15]. *)
Definition fraud_by_state (t : list Row) (n : Z) : list (Rate.row string) :=
  Sql.LIMIT n
    (Sql.order_by
       (fun a b => Sql.int_leb (Rate.fraud_txns b) (Rate.fraud_txns a))
       (map rate_row (Sql.group_by String.eqb (fun r => state (txn r)) t))).

Definition fraud_by_gender (t : list Row) : list (Rate.row string) :=
  map rate_row (Sql.group_by String.eqb (fun r => gender (txn r)) t).

Definition fraud_by_age_group (t : list Row)
  : list (Rate.row (option string)) :=
  Sql.order_by by_rate_desc
    (map rate_row
       (Sql.group_by (Sql.key_eqb String.eqb) age_group
          (filter (fun r => Sql.is_not_null (age_group r)) t))).

Definition fraud_by_city_size (t : list Row)
  : list (Rate.row (option string)) :=
  Sql.order_by by_rate_desc
    (map rate_row
       (Sql.group_by (Sql.key_eqb String.eqb) city_size
          (filter (fun r => Sql.is_not_null (city_size r)) t))).

(** [WHERE is_fraud = 1] *)
Definition where_fraud (t : list Row) : list Row :=
  filter (fun r => is_fraud (txn r) =? 1) t.

(** The timestamps are stored as text of one fixed layout, so SQLite's
    MIN and MAX on them pick the earliest and the latest instant. *)
Definition card_row (kg : Z * list Row) : RepeatFraudCards.row :=
  let (k, g) := kg in
  {| RepeatFraudCards.cc_num := k;
     RepeatFraudCards.fraud_count := Sql.COUNT g;
     RepeatFraudCards.total_fraud_amount :=
       Sql.ROUND2 (Sql.SUM_real (map (fun r => Some (amt (txn r))) g));
     RepeatFraudCards.first_fraud :=
       Sql.MIN (map (fun r => Some (trans_date_trans_time (txn r))) g);
     RepeatFraudCards.last_fraud :=
       Sql.MAX (map (fun r => Some (trans_date_trans_time (txn r))) g) |}.

Definition repeat_fraud_cards (t : list Row) : list RepeatFraudCards.row :=
  Sql.LIMIT 20
    (Sql.order_by
       (fun a b => RepeatFraudCards.fraud_count b <=? RepeatFraudCards.fraud_count a)
       (map card_row
          (filter (fun kg => 3 <=? Sql.COUNT (snd kg))
             (Sql.group_by Z.eqb (fun r => cc_num (txn r)) (where_fraud t))))).

Definition merchant_row (kg : (string * string) * list Row)
  : HighRiskMerchants.row :=
  let (k, g) := kg in
  {| HighRiskMerchants.merchant := fst k;
     HighRiskMerchants.category := snd k;
     HighRiskMerchants.total_txns := Sql.COUNT g;
     HighRiskMerchants.fraud_txns := sum_is_fraud g;
     HighRiskMerchants.fraud_rate_pct := rate_pct g;
     HighRiskMerchants.total_fraud_amount :=
       Sql.ROUND2 (Sql.SUM_real (map case_fraud_amt_else_0 g)) |}.

Definition high_risk_merchants (t : list Row) : list HighRiskMerchants.row :=
  Sql.LIMIT 20
    (Sql.order_by
       (fun a b => Sql.real_leb (HighRiskMerchants.fraud_rate_pct b)
                                (HighRiskMerchants.fraud_rate_pct a))
       (map merchant_row
          (filter (fun kg => (20 <=? Sql.COUNT (snd kg))
                             && Sql.ge_int (sum_is_fraud (snd kg)) 3)
             (Sql.group_by (Sql.pair_eqb String.eqb String.eqb)
                (fun r => (merchant (txn r), category (txn r))) t)))).

(** [ORDER BY txn_month] compares the labels as text. *)
Definition fraud_trend_monthly (t : list Row) : list (Rate.row string) :=
  Sql.order_by (fun a b => String.leb (Rate.key a) (Rate.key b))
    (map rate_row (Sql.group_by String.eqb txn_month t)).

(** ** Calls that can fail *)

(** The Python exceptions that the calls below can end with. *)
Inductive exception : Type :=
| AttributeError
| OverflowError
| TypeError.

(** What a call comes to: its result, or the exception it raises. *)
Inductive outcome (A : Type) : Type :=
| Returned (a : A)
| Raised (e : exception).

Arguments Returned {A} a.
Arguments Raised {A} e.

(** [load_data(filepath)] as a call, for a file whose data rows are [df].
    Without a single row [pd.read_csv] parses no date and leaves
    [trans_date_trans_time] an untyped column, so the [.dt] accessor of
    the first derived column raises [AttributeError].  A card number of
    2^63 or more does not fit an INTEGER of SQLite, and [to_sql] raises
    [OverflowError].  Otherwise the table [transactions] holds
    [load_data df]. *)
Definition load_data_call (df : list Transaction) : outcome (list Row) :=
  match df with
  | [] => Raised AttributeError
  | _ => if forallb (fun t => cc_num t <? 2 ^ 63) df
         then Returned (load_data df)
         else Raised OverflowError
  end.

(** [fraud_overview(conn)] as a call on the table [t]: the query is run
    and the figures of its row are printed.  [int(result['fraud_count'])]
    and the number formats after it raise [TypeError] on a NULL; with no
    NULL the call prints the row (and returns nothing else). *)
Definition fraud_overview_call (t : list Row) : outcome Overview.row :=
  let result := fraud_overview t in
  match Overview.fraud_count result, Overview.fraud_rate_pct result,
        Overview.avg_amount result, Overview.total_fraud_amount result with
  | Some _, Some _, Some _, Some _ => Returned result
  | _, _, _, _ => Raised TypeError
  end.

(** ** Reference definitions and sample data *)

(** The age as the specification words it: the floor of the elapsed days
    over 365.25. *)
Definition floor_years (ts born : Z) : Z :=
  Qfloor (inject_Z (Pandas.dt_days (ts - born)) / (36525 # 100)).

(** Midnight of the day [d] days after the epoch. *)
Definition day (d : Z) : Z := d * Pandas.ns_per_day.

(** A transaction of card [cc] at [merch] (category ["misc_pos"]), made at
    [ts] by a customer born at [born] living in a town of 5000. *)
Definition sample (ts cc : Z) (merch : string) (a : Q) (fraud born : Z)
  : Transaction :=
  {| trans_date_trans_time := ts;
     cc_num := cc;
     merchant := merch;
     category := "misc_pos";
     amt := a;
     is_fraud := fraud;
     dob := born;
     state := "NY";
     gender := "F";
     city_pop := 5000 |}.

(** A customer born at the epoch: aged exactly 25 on day 9132, and
    exactly 120 on day 43830. *)
Definition t_age_25 : Transaction := sample (day 9132) 1 "shop" 50 0 0.
Definition t_age_120 : Transaction := sample (day 43830) 1 "shop" 50 0 0.

(** A date of birth one day after the transaction. *)
Definition t_born_later : Transaction := sample (day 0) 1 "shop" 50 0 (day 1).

(** A transaction of amount zero. *)
Definition t_amt_0 : Transaction := sample (day 18000) 1 "shop" 0 0 (day 3000).

(** The fraud rows of one card: the rows of the table with that card
    number and [is_fraud = 1]. *)
Definition card_fraud_rows (t : list Row) (card : Z) : list Row :=
  filter (fun x => (is_fraud (txn x) =? 1) && (card =? cc_num (txn x))) t.

(** The rows of one merchant category. *)
Definition category_rows (t : list Row) (c : string) : list Row :=
  filter (fun x => String.eqb c (category (txn x))) t.

(** The rows of one merchant within one category. *)
Definition merchant_rows (t : list Row) (m c : string) : list Row :=
  filter (fun x => String.eqb m (merchant (txn x))
                   && String.eqb c (category (txn x))) t.

Definition amounts (g : list Row) : list Q := map (fun x => amt (txn x)) g.
Definition timestamps (g : list Row) : list Z :=
  map (fun x => trans_date_trans_time (txn x)) g.

(** The plain average of the amounts of some rows; none for no rows. *)
Definition mean_amt (g : list Row) : option Q :=
  match g with
  | [] => None
  | _ => Some (Sql.Qsum (amounts g) / inject_Z (Sql.COUNT g))%Q
  end.

(** One card with three fraud rows of 10, 20 and 30 and a legitimate row,
    and another card with two fraud rows. *)
Definition three_frauds : list Transaction :=
  [ sample (day 18001) 111 "shop" 20 1 (day 3000);
    sample (day 18000) 111 "shop" 10 1 (day 3000);
    sample (day 17000) 111 "shop" 999 0 (day 3000);
    sample (day 18002) 111 "shop" 30 1 (day 3000);
    sample (day 18003) 222 "shop" 40 1 (day 4000);
    sample (day 18004) 222 "shop" 50 1 (day 4000) ].

(** A merchant with [n] legitimate transactions of 50 and five fraud
    transactions of 100. *)
Definition merchant_with (n : nat) : list Transaction :=
  repeat (sample (day 18000) 333 "kiosk" 50 0 (day 3000)) n
  ++ repeat (sample (day 18000) 444 "kiosk" 100 1 (day 3000)) 5.

(** ** The queries of [plot_amount_distribution] *)

(** [SELECT amt FROM transactions WHERE is_fraud = v] *)
Definition select_amt_where_is_fraud (v : Z) (t : list Row) : list Q :=
  map (fun r => amt (txn r)) (filter (fun r => is_fraud (txn r) =? v) t).

(** The two samples that the histogram compares. *)
Definition legit (t : list Row) : list Q := select_amt_where_is_fraud 0 t.
Definition fraud (t : list Row) : list Q := select_amt_where_is_fraud 1 t.

(** ** Vocabulary of the properties *)

(** The flag column holds 0 or 1 in every row, as in the data set. *)
Definition flags_01 (t : list Row) : Prop :=
  Forall (fun r => is_fraud (txn r) = 0 \/ is_fraud (txn r) = 1) t.

(** A nullable integer read as a number, NULL as 0. *)
Definition int_or_0 (x : option Z) : Z :=
  match x with
  | Some n => n
  | None => 0
  end.

(** The total of an integer column of a result. *)
Definition total {A : Type} (f : A -> Z) (l : list A) : Z :=
  fold_right Z.add 0 (map f l).

(** A nullable rate lies between 0 and 100 and is not NULL. *)
Definition is_percentage (x : option Q) : Prop :=
  exists q, x = Some q /\ (0 <= q <= 100)%Q.

(** The three metrics of a report row are defined: the group has a row,
    and neither the fraud count nor the rate is NULL. *)
Definition metrics_defined (n : Z) (f : option Z) (p : option Q) : Prop :=
  1 <= n /\ f <> None /\ p <> None.

(** The three metrics of a report row make sense: the fraud count lies
    between 0 and the number of rows, and the rate is a percentage. *)
Definition metrics_sound (n : Z) (f : option Z) (p : option Q) : Prop :=
  (exists k, f = Some k /\ 0 <= k <= n) /\ is_percentage p.

Definition rate_row_defined {K : Type} (r : Rate.row K) : Prop :=
  metrics_defined (Rate.total_txns r) (Rate.fraud_txns r) (Rate.fraud_rate_pct r).

Definition rate_row_sound {K : Type} (r : Rate.row K) : Prop :=
  metrics_sound (Rate.total_txns r) (Rate.fraud_txns r) (Rate.fraud_rate_pct r).

(** The rows of one state. *)
Definition state_rows (t : list Row) (s : string) : list Row :=
  filter (fun x => String.eqb s (state (txn x))) t.

(** An amount in whole cents. *)
Definition is_cents (q : Q) : Prop := exists c : Z, (q == inject_Z c / 100)%Q.

(** * Properties *)

(** ** Bin edges *)

Lemma Qle_bool_false (x y : Q) : Qle_bool x y = false -> (y < x)%Q.
Proof.
  intros H. apply Qnot_le_lt. intros Hle.
  apply Qle_bool_iff in Hle. congruence.
Qed.

(** Turns the boolean comparisons of a goal into cases with the matching
    order facts as hypotheses. *)
Ltac edge_cases :=
  repeat match goal with
  | |- context [Qle_bool ?x ?y] =>
      let H := fresh "Hcmp" in
      destruct (Qle_bool x y) eqn:H;
      [apply Qle_bool_iff in H | apply Qle_bool_false in H]
  end.

(** What [pd.cut] makes of an amount: the intervals are open on the left
    and closed on the right. *)
Lemma cut_amount_bucket_spec (a : Q) :
  cut_amount_bucket a =
    if Qle_bool a 0 then None
    else if Qle_bool a 100 then Some "0-100"%string
    else if Qle_bool a 500 then Some "100-500"%string
    else if Qle_bool a 1000 then Some "500-1000"%string
    else Some "1000+"%string.
Proof.
  unfold cut_amount_bucket, Pandas.cut, Pandas.searchsorted_left, amount_bins.
  cbn [map app filter Pandas.edge_ltb].
  change (inject_Z 0) with 0%Q; change (inject_Z 100) with 100%Q;
    change (inject_Z 500) with 500%Q; change (inject_Z 1000) with 1000%Q.
  edge_cases; try reflexivity; exfalso; lra.
Qed.

Lemma Qle_bool_inject_Z (a b : Z) :
  Qle_bool (inject_Z a) (inject_Z b) = (a <=? b).
Proof. unfold Qle_bool; simpl. now rewrite !Z.mul_1_r. Qed.

(** What [pd.cut] makes of an age. *)
Lemma cut_age_group_spec (a : Z) :
  cut_age_group a =
    if a <=? 0 then None
    else if a <=? 25 then Some "18-24"%string
    else if a <=? 35 then Some "25-34"%string
    else if a <=? 45 then Some "35-44"%string
    else if a <=? 55 then Some "45-54"%string
    else if a <=? 65 then Some "55-64"%string
    else if a <=? 120 then Some "65+"%string
    else None.
Proof.
  unfold cut_age_group, Pandas.cut, Pandas.searchsorted_left, age_bins.
  cbn [map filter Pandas.edge_ltb].
  rewrite !Qle_bool_inject_Z.
  repeat match goal with
  | |- context [?x <=? ?y] => destruct (Z.leb_spec x y)
  end; try reflexivity; exfalso; lia.
Qed.

(** What [pd.cut] makes of a city population. *)
Lemma cut_city_size_spec (pop : Z) :
  cut_city_size pop =
    if pop <=? 0 then None
    else if pop <=? 10000 then Some "Rural (<10K)"%string
    else if pop <=? 100000 then Some "Small (10K-100K)"%string
    else if pop <=? 500000 then Some "Mid (100K-500K)"%string
    else Some "Large (500K+)"%string.
Proof.
  unfold cut_city_size, Pandas.cut, Pandas.searchsorted_left, city_bins.
  cbn [map app filter Pandas.edge_ltb].
  rewrite !Qle_bool_inject_Z.
  repeat match goal with
  | |- context [?x <=? ?y] => destruct (Z.leb_spec x y)
  end; try reflexivity; exfalso; lia.
Qed.

(** The amount bucket depends on the value of the amount only, not on
    the fraction that represents it. *)
Lemma cut_amount_bucket_Qeq (a b : Q) :
  (a == b)%Q -> cut_amount_bucket a = cut_amount_bucket b.
Proof.
  intros E. rewrite !cut_amount_bucket_spec.
  edge_cases; try reflexivity; exfalso; lra.
Qed.

(** The columns that [derive] fills are the cut of the matching input. *)
Lemma age_group_derive (t : Transaction) :
  age_group (derive t) = cut_age_group (age (derive t)).
Proof. reflexivity. Qed.

(** An age on the edge 25 stays in the lower bin, for every row. *)
Lemma age_on_edge_25 (t : Transaction) :
  age (derive t) = 25 -> age_group (derive t) = Some "18-24"%string.
Proof. intros H. rewrite age_group_derive, H. reflexivity. Qed.

(** C2 (defect of the code).  The claim asks that a row whose derived age
    is exactly 25 gets the age group "25-34".  The customer of
    [t_age_25] is exactly 25 at the transaction, and [load_data] files
    the row under "18-24", a label that does not cover the age 25. *)
Theorem age_25_lands_in_18_24 :
  age (derive t_age_25) = 25
  /\ age_group (derive t_age_25) = Some "18-24"%string
  /\ age_group (derive t_age_25) <> Some "25-34"%string.
Proof. repeat split; try reflexivity. discriminate. Qed.

(** C3 (counterexample).  The amount 0 is not put into "0-100": it gets
    no bucket at all, so not every amount [>= 0] has one. *)
Lemma amount_0_unbucketed :
  (0 <= amt t_amt_0)%Q /\ amount_bucket (derive t_amt_0) = None.
Proof. split; [discriminate | reflexivity]. Qed.

(** C3 (amended).  Every amount above 0 gets exactly one of the four
    amount buckets, the one whose range (lower bound excluded, upper
    bound included) holds it; the amount 0 itself gets none. *)
Theorem amount_bucket_total :
  (forall t : Transaction, (0 < amt t)%Q ->
     (exists! l, In l amount_labels /\ amount_bucket (derive t) = Some l)
     /\ (amount_bucket (derive t) = Some "0-100"%string <-> (amt t <= 100)%Q)
     /\ (amount_bucket (derive t) = Some "100-500"%string
         <-> (100 < amt t <= 500)%Q)
     /\ (amount_bucket (derive t) = Some "500-1000"%string
         <-> (500 < amt t <= 1000)%Q)
     /\ (amount_bucket (derive t) = Some "1000+"%string <-> (1000 < amt t)%Q))
  /\ (forall t : Transaction, (amt t == 0)%Q -> amount_bucket (derive t) = None).
Proof.
  split.
  - intros t Hpos. cbn [derive amount_bucket].
    rewrite cut_amount_bucket_spec. unfold amount_labels.
    edge_cases; try (exfalso; lra);
      (split;
       [ eexists; split;
         [ split; [ | reflexivity ]; simpl; tauto
         | intros l' [_ E]; congruence ]
       | repeat split; intros; try discriminate; try reflexivity; try lra ]).
  - intros t H0. cbn [derive amount_bucket].
    rewrite cut_amount_bucket_spec.
    edge_cases; try reflexivity; exfalso; lra.
Qed.

Lemma amount_bucket_total_witness :
  (exists! l, In l amount_labels /\ amount_bucket (derive t_age_25) = Some l)
  /\ amount_bucket (derive t_amt_0) = None.
Proof.
  split.
  - apply (proj1 amount_bucket_total t_age_25). reflexivity.
  - apply (proj2 amount_bucket_total t_amt_0). reflexivity.
Defined.

(** C4 (counterexample).  The amount 100 is not put into the bin that
    starts at 100. *)
Lemma amount_100_not_in_100_500 :
  cut_amount_bucket 100 = Some "0-100"%string
  /\ cut_amount_bucket 100 <> Some "100-500"%string.
Proof. split; [reflexivity | discriminate]. Qed.

(** C4 (amended).  An amount exactly on an interior edge (100, 500, 1000)
    gets the bin whose upper bound is that edge, and so do the city
    populations 100000 and 500000. *)
Theorem edge_value_in_lower_bin (t : Transaction) :
  ((amt t == 100)%Q -> amount_bucket (derive t) = Some "0-100"%string)
  /\ ((amt t == 500)%Q -> amount_bucket (derive t) = Some "100-500"%string)
  /\ ((amt t == 1000)%Q -> amount_bucket (derive t) = Some "500-1000"%string)
  /\ (city_pop t = 100000 ->
      city_size (derive t) = Some "Small (10K-100K)"%string)
  /\ (city_pop t = 500000 ->
      city_size (derive t) = Some "Mid (100K-500K)"%string).
Proof.
  cbn [derive amount_bucket city_size].
  repeat split; intros H.
  - now rewrite (cut_amount_bucket_Qeq _ _ H).
  - now rewrite (cut_amount_bucket_Qeq _ _ H).
  - now rewrite (cut_amount_bucket_Qeq _ _ H).
  - now rewrite H.
  - now rewrite H.
Qed.

Lemma edge_value_in_lower_bin_witness :
  amount_bucket (derive (sample 0 1 "shop" (200 # 2) 0 0)) = Some "0-100"%string
  /\ amount_bucket (derive (sample 0 1 "shop" 500 0 0)) = Some "100-500"%string
  /\ amount_bucket (derive (sample 0 1 "shop" 1000 0 0)) = Some "500-1000"%string
  /\ city_size (derive (mkTransaction 0 1 "shop" "misc_pos" 5 0 0 "NY" "F" 100000))
     = Some "Small (10K-100K)"%string
  /\ city_size (derive (mkTransaction 0 1 "shop" "misc_pos" 5 0 0 "NY" "F" 500000))
     = Some "Mid (100K-500K)"%string.
Proof.
  refine (conj _ (conj _ (conj _ (conj _ _)))).
  - apply (proj1 (edge_value_in_lower_bin _)). reflexivity.
  - apply (proj1 (proj2 (edge_value_in_lower_bin _))). reflexivity.
  - apply (proj1 (proj2 (proj2 (edge_value_in_lower_bin _)))). reflexivity.
  - apply (proj1 (proj2 (proj2 (proj2 (edge_value_in_lower_bin _))))).
    reflexivity.
  - apply (proj2 (proj2 (proj2 (proj2 (edge_value_in_lower_bin _))))).
    reflexivity.
Defined.

(** ** The age *)

Lemma astype_int_nonneg (q : Q) : 0 <= Qnum q -> Pandas.astype_int q = Qfloor q.
Proof.
  destruct q as [n d]; simpl; intros Hn.
  unfold Pandas.astype_int; simpl.
  apply Z.quot_div_nonneg; lia.
Qed.

Lemma astype_int_neg (q : Q) : Qnum q < 0 -> Pandas.astype_int q = Qceiling q.
Proof.
  destruct q as [n d]; simpl; intros Hn.
  unfold Pandas.astype_int, Qceiling, Qfloor; simpl.
  replace n with (- - n) at 1 by lia.
  rewrite Z.quot_opp_l by lia.
  f_equal. apply Z.quot_div_nonneg; lia.
Qed.

Lemma Qnum_years (d : Z) : Qnum (inject_Z d / (36525 # 100)) = d * 100.
Proof. reflexivity. Qed.

(** C9 (counterexample).  With a date of birth one day after the
    transaction the elapsed days are -1; the floor of -1 / 365.25 is -1,
    and the derived age is 0. *)
Lemma age_not_floor_when_born_later :
  Pandas.dt_days (trans_date_trans_time t_born_later - dob t_born_later) = -1
  /\ floor_years (trans_date_trans_time t_born_later) (dob t_born_later) = -1
  /\ age (derive t_born_later) = 0.
Proof. repeat split. Qed.

(** C9 (amended).  The derived age is the quotient of the elapsed whole
    days by 365.25 with its fraction dropped towards zero: the floor of
    the quotient when the date of birth is not after the transaction, and
    its ceiling when it is. *)
Theorem age_truncates_towards_zero (t : Transaction) :
  (dob t <= trans_date_trans_time t ->
   age (derive t) = floor_years (trans_date_trans_time t) (dob t))
  /\ (trans_date_trans_time t < dob t ->
      age (derive t) =
      Qceiling (inject_Z (Pandas.dt_days (trans_date_trans_time t - dob t))
                / (36525 # 100))).
Proof.
  cbn [derive age]. unfold derive_age, floor_years.
  set (d := Pandas.dt_days (trans_date_trans_time t - dob t)).
  split; intros H.
  - apply astype_int_nonneg. rewrite Qnum_years.
    assert (0 <= d) by (apply Z.div_pos; [lia | reflexivity]). lia.
  - apply astype_int_neg. rewrite Qnum_years.
    assert (d < 0) by (apply Z.div_lt_upper_bound; [reflexivity | lia]). lia.
Qed.

Lemma age_truncates_towards_zero_witness :
  age (derive t_age_25)
  = floor_years (trans_date_trans_time t_age_25) (dob t_age_25)
  /\ age (derive t_born_later)
     = Qceiling (inject_Z (Pandas.dt_days (trans_date_trans_time t_born_later
                                           - dob t_born_later))
                 / (36525 # 100)).
Proof.
  split.
  - apply (proj1 (age_truncates_towards_zero t_age_25)). vm_compute. discriminate.
  - apply (proj2 (age_truncates_towards_zero t_born_later)). reflexivity.
Defined.

(** ** Rows of a query result *)

Section ResultRows.

Context {A : Type}.

Lemma In_insert_row (before : A -> A -> bool) (x y : A) (l : list A) :
  In x (Sql.insert_row before y l) <-> x = y \/ In x l.
Proof.
  induction l as [|z l IH]; simpl.
  - intuition.
  - destruct (before y z); simpl; rewrite ?IH; intuition.
Qed.

(** Sorting keeps the rows. *)
Lemma In_order_by (before : A -> A -> bool) (x : A) (l : list A) :
  In x (Sql.order_by before l) <-> In x l.
Proof.
  induction l as [|y l IH]; simpl.
  - tauto.
  - rewrite In_insert_row, IH. intuition.
Qed.

(** LIMIT only drops rows. *)
Lemma In_LIMIT (n : Z) (x : A) (l : list A) : In x (Sql.LIMIT n l) -> In x l.
Proof.
  unfold Sql.LIMIT. destruct (n <? 0); [tauto|].
  generalize (Z.to_nat n) as k. intros k. revert l.
  induction k as [|k IH]; intros [|y l]; simpl; try tauto.
  intros [E|H]; [now left | right; now apply IH].
Qed.

Lemma filter_filter (f g : A -> bool) (l : list A) :
  filter f (filter g l) = filter (fun x => g x && f x) l.
Proof.
  induction l as [|x l IH]; simpl; [reflexivity|].
  destruct (g x); simpl; [destruct (f x)|]; now rewrite IH.
Qed.

Lemma non_null_Some {B : Type} (f : B -> A) (l : list B) :
  Sql.non_null (map (fun x => Some (f x)) l) = map f l.
Proof. induction l as [|x l IH]; simpl; [reflexivity | now rewrite IH]. Qed.

End ResultRows.

Section Groups.

Context {A K : Type} (eqb : K -> K -> bool) (key : A -> K).

Lemma In_distinct (k : K) (ks : list K) : In k (Sql.distinct eqb ks) -> In k ks.
Proof.
  induction ks as [|k' ks IH]; simpl; [tauto|].
  intros [E|H]; [now left|]. apply filter_In in H. right. now apply IH.
Qed.

(** A group holds the rows of the table that carry its key, and its key
    is the key of some row. *)
Lemma In_group_by (k : K) (g : list A) (rows : list A) :
  In (k, g) (Sql.group_by eqb key rows) ->
  g = filter (fun r => eqb k (key r)) rows /\ In k (map key rows).
Proof.
  unfold Sql.group_by. intros H. apply in_map_iff in H.
  destruct H as [k' [E H]]. inversion E; subst.
  split; [reflexivity | now apply In_distinct].
Qed.

(** No group is empty: grouping never divides by zero. *)
Lemma group_not_empty (k : K) (g : list A) (rows : list A) :
  (forall x, eqb x x = true) ->
  In (k, g) (Sql.group_by eqb key rows) -> g <> [].
Proof.
  intros Hrefl H. apply In_group_by in H. destruct H as [-> H].
  apply in_map_iff in H. destruct H as [r [E Hr]].
  intros Hnil.
  assert (Hin : In r (filter (fun r => eqb k (key r)) rows)).
  { apply filter_In. split; [assumption|]. rewrite E. apply Hrefl. }
  rewrite Hnil in Hin. exact Hin.
Qed.

End Groups.

(** ** Thresholds *)

(** C1.  Every row of the repeat-fraud-cards report has
    [fraud_count >= 3], and every row of the high-risk-merchants report
    has [total_txns >= 20] and [fraud_txns >= 3], whatever the table
    holds. *)
Theorem threshold_invariant (t : list Row) :
  Forall (fun r => 3 <= RepeatFraudCards.fraud_count r) (repeat_fraud_cards t)
  /\ Forall (fun r => 20 <= HighRiskMerchants.total_txns r
                      /\ exists n, HighRiskMerchants.fraud_txns r = Some n
                                   /\ 3 <= n)
            (high_risk_merchants t).
Proof.
  split; apply Forall_forall; intros r H.
  - unfold repeat_fraud_cards in H.
    apply In_LIMIT, In_order_by, in_map_iff in H.
    destruct H as [[k g] [<- H]]. apply filter_In in H.
    destruct H as [_ H]. simpl in *. lia.
  - unfold high_risk_merchants in H.
    apply In_LIMIT, In_order_by, in_map_iff in H.
    destruct H as [[k g] [<- H]]. apply filter_In in H.
    destruct H as [_ H]. simpl in *.
    apply andb_true_iff in H. destruct H as [Hc Hs].
    split; [lia|].
    destruct (sum_is_fraud g) as [n|]; simpl in Hs; [|discriminate].
    exists n. split; [reflexivity | lia].
Qed.

Example repeat_fraud_cards_three_frauds :
  repeat_fraud_cards (load_data three_frauds)
  = [ {| RepeatFraudCards.cc_num := 111;
         RepeatFraudCards.fraud_count := 3;
         RepeatFraudCards.total_fraud_amount := Some 60%Q;
         RepeatFraudCards.first_fraud := Some (day 18000);
         RepeatFraudCards.last_fraud := Some (day 18002) |} ].
Proof. vm_compute. reflexivity. Qed.

Example high_risk_merchants_19 : high_risk_merchants (load_data (merchant_with 14)) = [].
Proof. vm_compute. reflexivity. Qed.

Example high_risk_merchants_20 :
  high_risk_merchants (load_data (merchant_with 15))
  = [ {| HighRiskMerchants.merchant := "kiosk";
         HighRiskMerchants.category := "misc_pos";
         HighRiskMerchants.total_txns := 20;
         HighRiskMerchants.fraud_txns := Some 5;
         HighRiskMerchants.fraud_rate_pct := Some 25%Q;
         HighRiskMerchants.total_fraud_amount := Some 500%Q |} ].
Proof. vm_compute. reflexivity. Qed.

(** ** Aggregates *)

Lemma fold_left_min (l : list Z) (a : Z) :
  In (fold_left Z.min l a) (a :: l)
  /\ Forall (fun x => fold_left Z.min l a <= x) (a :: l).
Proof.
  revert a. induction l as [|x l IH]; intros a; simpl.
  - split; [now left | constructor; [lia | constructor]].
  - destruct (IH (Z.min a x)) as [Hin Hle]. split.
    + destruct Hin as [E|Hin]; [|right; right; assumption].
      rewrite <- E. destruct (Z.min_spec a x) as [[_ ->]|[_ ->]]; simpl; auto.
    + inversion Hle as [|y l' Hm Hl]; subst.
      constructor; [lia|]. constructor; [lia | assumption].
Qed.

Lemma fold_left_max (l : list Z) (a : Z) :
  In (fold_left Z.max l a) (a :: l)
  /\ Forall (fun x => x <= fold_left Z.max l a) (a :: l).
Proof.
  revert a. induction l as [|x l IH]; intros a; simpl.
  - split; [now left | constructor; [lia | constructor]].
  - destruct (IH (Z.max a x)) as [Hin Hle]. split.
    + destruct Hin as [E|Hin]; [|right; right; assumption].
      rewrite <- E. destruct (Z.max_spec a x) as [[_ ->]|[_ ->]]; simpl; auto.
    + inversion Hle as [|y l' Hm Hl]; subst.
      constructor; [lia|]. constructor; [lia | assumption].
Qed.

(** MIN and MAX of a column without NULLs, over at least one row: values
    of the column that bound all the others. *)
Lemma MIN_MAX_spec {A : Type} (f : A -> Z) (g : list A) :
  g <> [] ->
  exists lo hi,
    Sql.MIN (map (fun x => Some (f x)) g) = Some lo
    /\ Sql.MAX (map (fun x => Some (f x)) g) = Some hi
    /\ In lo (map f g) /\ In hi (map f g)
    /\ Forall (fun x => lo <= x <= hi) (map f g).
Proof.
  intros Hg. unfold Sql.MIN, Sql.MAX. rewrite non_null_Some.
  destruct g as [|x g]; [congruence|]. simpl map.
  destruct (fold_left_min (map f g) (f x)) as [Hin1 Hle1].
  destruct (fold_left_max (map f g) (f x)) as [Hin2 Hle2].
  eexists; eexists. repeat split; try eassumption.
  rewrite Forall_forall in *. intros y Hy.
  split; [now apply Hle1 | now apply Hle2].
Qed.

(** SUM of a column without NULLs, over at least one row. *)
Lemma SUM_real_Some {A : Type} (f : A -> Q) (g : list A) :
  g <> [] -> Sql.SUM_real (map (fun x => Some (f x)) g) = Some (Sql.Qsum (map f g)).
Proof.
  intros Hg. unfold Sql.SUM_real. rewrite non_null_Some.
  destruct g; [congruence | reflexivity].
Qed.

Lemma COUNT_not_empty {A : Type} (g : list A) : 0 < Sql.COUNT g -> g <> [].
Proof. intros H ->. unfold Sql.COUNT in H; simpl in H. lia. Qed.

(** The group of a card among the fraud rows is the set of fraud rows of
    that card. *)
Lemma card_group (t : list Row) (k : Z) :
  filter (fun r => k =? cc_num (txn r)) (where_fraud t) = card_fraud_rows t k.
Proof. unfold where_fraud, card_fraud_rows. apply filter_filter. Qed.

(** A row that is not a fraud row is invisible to the report. *)
Lemma repeat_fraud_cards_skips (l1 l2 : list Row) (r : Row) :
  is_fraud (txn r) <> 1 ->
  repeat_fraud_cards (l1 ++ r :: l2) = repeat_fraud_cards (l1 ++ l2).
Proof.
  intros H. unfold repeat_fraud_cards, where_fraud.
  rewrite !filter_app. simpl.
  destruct (Z.eqb_spec (is_fraud (txn r)) 1); [contradiction | reflexivity].
Qed.

(** The columns of a row of the report, in terms of the fraud rows of
    its card. *)
Lemma repeat_fraud_cards_row (t : list Row) (r : RepeatFraudCards.row) :
  In r (repeat_fraud_cards t) ->
  let g := card_fraud_rows t (RepeatFraudCards.cc_num r) in
  RepeatFraudCards.fraud_count r = Sql.COUNT g
  /\ RepeatFraudCards.total_fraud_amount r
     = Some (Sql.round2 (Sql.Qsum (amounts g)))
  /\ exists lo hi,
       RepeatFraudCards.first_fraud r = Some lo
       /\ RepeatFraudCards.last_fraud r = Some hi
       /\ In lo (timestamps g) /\ In hi (timestamps g)
       /\ Forall (fun x => lo <= x <= hi) (timestamps g).
Proof.
  intros H. unfold repeat_fraud_cards in H.
  apply In_LIMIT, In_order_by, in_map_iff in H.
  destruct H as [[k g] [<- H]]. apply filter_In in H.
  destruct H as [H Hc]. apply In_group_by in H. destruct H as [Hg _].
  rewrite card_group in Hg. cbn [card_row RepeatFraudCards.cc_num
    RepeatFraudCards.fraud_count RepeatFraudCards.total_fraud_amount
    RepeatFraudCards.first_fraud RepeatFraudCards.last_fraud].
  rewrite <- Hg. simpl in Hc.
  assert (Hne : g <> []) by (apply COUNT_not_empty; lia).
  split; [reflexivity|]. split.
  - unfold amounts. now rewrite SUM_real_Some.
  - unfold timestamps. now apply MIN_MAX_spec.
Qed.

(** C10.  Each row of the repeat-fraud-cards report is computed from the
    fraud rows of its card alone: [fraud_count] is their number,
    [total_fraud_amount] is the sum of their amounts (rounded to two
    decimals), and [first_fraud] and [last_fraud] are the least and the
    greatest of their timestamps.  Rows with [is_fraud <> 1] contribute
    nothing: the report is the same with or without them. *)
Theorem repeat_fraud_cards_columns (t : list Row) :
  Forall (fun r =>
            let g := card_fraud_rows t (RepeatFraudCards.cc_num r) in
            RepeatFraudCards.fraud_count r = Sql.COUNT g
            /\ RepeatFraudCards.total_fraud_amount r
               = Some (Sql.round2 (Sql.Qsum (amounts g)))
            /\ exists lo hi,
                 RepeatFraudCards.first_fraud r = Some lo
                 /\ RepeatFraudCards.last_fraud r = Some hi
                 /\ In lo (timestamps g) /\ In hi (timestamps g)
                 /\ Forall (fun x => lo <= x <= hi) (timestamps g))
         (repeat_fraud_cards t)
  /\ (forall (l1 l2 : list Row) (r : Row),
        t = l1 ++ r :: l2 -> is_fraud (txn r) <> 1 ->
        repeat_fraud_cards t = repeat_fraud_cards (l1 ++ l2)).
Proof.
  split.
  - apply Forall_forall. intros r H. now apply repeat_fraud_cards_row.
  - intros l1 l2 r -> H. now apply repeat_fraud_cards_skips.
Qed.

Lemma repeat_fraud_cards_columns_witness :
  repeat_fraud_cards (load_data three_frauds)
  = repeat_fraud_cards
      (firstn 2 (load_data three_frauds) ++ skipn 3 (load_data three_frauds)).
Proof.
  apply (proj2 (repeat_fraud_cards_columns (load_data three_frauds))
           (firstn 2 (load_data three_frauds))
           (skipn 3 (load_data three_frauds))
           (derive (sample (day 17000) 111 "shop" 999 0 (day 3000)))).
  - reflexivity.
  - discriminate.
Defined.

(** ** Fraud amounts *)

(** The values that [CASE WHEN is_fraud = 1 THEN amt END] leaves to AVG
    are the amounts of the fraud rows. *)
Lemma non_null_case_fraud_amt (g : list Row) :
  Sql.non_null (map case_fraud_amt g) = amounts (where_fraud g).
Proof.
  unfold amounts, where_fraud, case_fraud_amt.
  induction g as [|x g IH]; simpl; [reflexivity|].
  destruct (is_fraud (txn x) =? 1); simpl; now rewrite IH.
Qed.

Lemma AVG_case_fraud_amt (g : list Row) :
  Sql.AVG (map case_fraud_amt g) = mean_amt (where_fraud g).
Proof.
  unfold Sql.AVG, mean_amt. rewrite non_null_case_fraud_amt.
  unfold amounts at 1. destruct (where_fraud g) as [|x v]; [reflexivity|].
  cbn [map]. unfold amounts, Sql.COUNT. cbn [map length].
  now rewrite length_map.
Qed.

Lemma fold_left_Qplus_comp (l : list Q) (a b : Q) :
  (a == b)%Q -> (fold_left Qplus l a == fold_left Qplus l b)%Q.
Proof.
  revert a b. induction l as [|x l IH]; intros a b E; simpl; [assumption|].
  apply IH. now rewrite E.
Qed.

(** With [ELSE 0] every row has a value, and the rows that are not fraud
    rows add nothing to the sum. *)
Lemma non_null_else_0 (g : list Row) :
  Sql.non_null (map case_fraud_amt_else_0 g)
  = map (fun x => if is_fraud (txn x) =? 1 then amt (txn x) else 0%Q) g.
Proof.
  unfold case_fraud_amt_else_0.
  induction g as [|x g IH]; simpl; [reflexivity|].
  destruct (is_fraud (txn x) =? 1); simpl; now rewrite IH.
Qed.

Lemma Qsum_else_0 (g : list Row) (a : Q) :
  (fold_left Qplus
     (map (fun x => if is_fraud (txn x) =? 1 then amt (txn x) else 0%Q) g) a
   == fold_left Qplus (amounts (where_fraud g)) a)%Q.
Proof.
  unfold amounts, where_fraud. revert a.
  induction g as [|x g IH]; intros a; simpl; [reflexivity|].
  destruct (is_fraud (txn x) =? 1); simpl.
  - apply IH.
  - rewrite <- IH. apply fold_left_Qplus_comp. ring.
Qed.

Lemma round2_comp (a b : Q) : (a == b)%Q -> Sql.round2 a = Sql.round2 b.
Proof.
  intros E. unfold Sql.round2, Sql.round_half_away.
  assert (E100 : (a * 100 == b * 100)%Q) by now rewrite E.
  rewrite E100. destruct (Qle_bool 0 (b * 100)).
  - assert (Ef : Qfloor (a * 100 + (1 # 2)) = Qfloor (b * 100 + (1 # 2)))
      by now rewrite E100.
    now rewrite Ef.
  - assert (Ec : Qceiling (a * 100 - (1 # 2)) = Qceiling (b * 100 - (1 # 2)))
      by now rewrite E100.
    now rewrite Ec.
Qed.

(** [ROUND(SUM(CASE WHEN is_fraud = 1 THEN amt ELSE 0 END), 2)] over at
    least one row. *)
Lemma total_fraud_amount_spec (g : list Row) :
  g <> [] ->
  Sql.ROUND2 (Sql.SUM_real (map case_fraud_amt_else_0 g))
  = Some (Sql.round2 (Sql.Qsum (amounts (where_fraud g)))).
Proof.
  intros Hg. unfold Sql.SUM_real. rewrite non_null_else_0.
  destruct g as [|x g]; [congruence|].
  remember (x :: g) as l. destruct l as [|y l]; [discriminate|].
  cbn [map]. rewrite <- (map_cons (fun x => if is_fraud (txn x) =? 1
                                            then amt (txn x) else 0%Q) y l).
  cbn [Sql.ROUND2 option_map]. f_equal.
  apply round2_comp. apply Qsum_else_0.
Qed.

(** The average of the fraud amounts is not the average with the other
    rows counted as 0: one fraud row of 100 next to one legitimate row
    gives 100, not 50. *)
Example avg_fraud_amt_ignores_legitimate_rows :
  map ByCategory.avg_fraud_amt
      (fraud_by_category
         (load_data [ sample (day 18000) 1 "shop" 100 1 (day 3000);
                      sample (day 18000) 2 "shop" 70 0 (day 3000) ]))
  = [Some 100%Q].
Proof. vm_compute. reflexivity. Qed.

(** ** Rows without a bucket *)

(** A row whose age group is NULL does not reach the by-age-group
    report, and one whose city size is NULL does not reach the
    by-city-size report. *)
Lemma fraud_by_age_group_skips (l1 l2 : list Row) (r : Row) :
  age_group r = None ->
  fraud_by_age_group (l1 ++ r :: l2) = fraud_by_age_group (l1 ++ l2).
Proof.
  intros H. unfold fraud_by_age_group. rewrite !filter_app. simpl.
  now rewrite H.
Qed.

Lemma fraud_by_city_size_skips (l1 l2 : list Row) (r : Row) :
  city_size r = None ->
  fraud_by_city_size (l1 ++ r :: l2) = fraud_by_city_size (l1 ++ l2).
Proof.
  intros H. unfold fraud_by_city_size. rewrite !filter_app. simpl.
  now rewrite H.
Qed.

Lemma load_data_app (l1 l2 : list Transaction) :
  load_data (l1 ++ l2) = load_data l1 ++ load_data l2.
Proof. apply map_app. Qed.

(** No row is dropped at load time, whatever its buckets. *)
Lemma load_data_length (df : list Transaction) :
  length (load_data df) = length df.
Proof. apply length_map. Qed.

(** The overview counts every row of the table. *)
Lemma overview_counts_every_row (df : list Transaction) :
  Overview.total_txns (fraud_overview (load_data df)) = Z.of_nat (length df).
Proof. cbn [fraud_overview Overview.total_txns]. unfold Sql.COUNT.
  now rewrite load_data_length. Qed.

(** C5 (counterexample).  A customer aged exactly 120 is put into the
    group "65+", and the row is counted by the by-age-group report. *)
Lemma age_120_is_bucketed :
  120 <= age (derive t_age_120)
  /\ age_group (derive t_age_120) = Some "65+"%string
  /\ fraud_by_age_group (load_data [t_age_120])
     = [ {| Rate.key := Some "65+"%string;
            Rate.total_txns := 1;
            Rate.fraud_txns := Some 0;
            Rate.fraud_rate_pct := Some 0%Q |} ].
Proof. repeat split. vm_compute. discriminate. Qed.

(** C5 (amended).  A row whose derived age is at most 0 or above 120 gets
    no age group, and the by-age-group report is the same with or without
    it. *)
Theorem age_out_of_bins_unbucketed (t : Transaction) :
  age (derive t) <= 0 \/ 120 < age (derive t) ->
  age_group (derive t) = None
  /\ forall l1 l2 : list Transaction,
       fraud_by_age_group (load_data (l1 ++ t :: l2))
       = fraud_by_age_group (load_data (l1 ++ l2)).
Proof.
  intros H.
  assert (E : age_group (derive t) = None).
  { rewrite age_group_derive, cut_age_group_spec.
    repeat match goal with
    | |- context [?x <=? ?y] => destruct (Z.leb_spec x y)
    end; try reflexivity; exfalso; lia. }
  split; [exact E|]. intros l1 l2.
  rewrite !load_data_app. cbn [load_data map].
  now apply fraud_by_age_group_skips.
Qed.

Lemma age_out_of_bins_unbucketed_witness :
  age_group (derive t_born_later) = None
  /\ forall l1 l2 : list Transaction,
       fraud_by_age_group (load_data (l1 ++ t_born_later :: l2))
       = fraud_by_age_group (load_data (l1 ++ l2)).
Proof.
  apply (age_out_of_bins_unbucketed t_born_later).
  left. vm_compute. discriminate.
Defined.

(** C6 (defect of the code).  The claim asks that a row without an
    amount bucket stays out of the by-amount-bucket report, as the
    queries by age group and by city size keep their NULL rows out.  The
    row [t_amt_0] has no amount bucket, and the by-amount-bucket query,
    which has no such filter, reports it in a group of its own under the
    NULL bucket. *)
Theorem null_amount_bucket_is_reported :
  amount_bucket (derive t_amt_0) = None
  /\ fraud_by_amount_bucket (load_data [t_amt_0])
     = [ {| Rate.key := None;
            Rate.total_txns := 1;
            Rate.fraud_txns := Some 0;
            Rate.fraud_rate_pct := Some 0%Q |} ]
  /\ fraud_by_amount_bucket (load_data [t_amt_0]) <> fraud_by_amount_bucket (load_data []).
Proof. repeat split. vm_compute. discriminate. Qed.


(** ** Every row is in one group *)

Section Partition.

Context {A K : Type} (eqb : K -> K -> bool) (key : A -> K).
Hypothesis eqb_eq : forall x y, eqb x y = true <-> x = y.

Lemma In_distinct_iff (k : K) (ks : list K) :
  In k (Sql.distinct eqb ks) <-> In k ks.
Proof.
  split; [apply In_distinct|].
  induction ks as [|k' ks IH]; simpl; [tauto|].
  intros [E|H]; [now left|].
  destruct (eqb k' k) eqn:Ek.
  - left. now apply eqb_eq.
  - right. apply filter_In. split; [now apply IH | now rewrite Ek].
Qed.

Lemma NoDup_distinct (ks : list K) : NoDup (Sql.distinct eqb ks).
Proof.
  induction ks as [|k ks IH]; simpl; constructor.
  - intros H. apply filter_In in H. destruct H as [_ H].
    assert (E : eqb k k = true) by now apply eqb_eq.
    rewrite E in H. discriminate.
  - now apply NoDup_filter.
Qed.

Lemma length_filter_orb (p q : A -> bool) (l : list A) :
  (forall x, p x = true -> q x = false) ->
  length (filter (fun x => p x || q x) l)
  = (length (filter p l) + length (filter q l))%nat.
Proof.
  intros Hpq. induction l as [|x l IH]; simpl; [reflexivity|].
  destruct (p x) eqn:Ep; simpl.
  - rewrite (Hpq x Ep). simpl. now rewrite IH.
  - destruct (q x); simpl; rewrite IH; lia.
Qed.

(** The sizes of the groups of distinct keys add up to the number of rows
    that carry one of these keys. *)
Lemma group_sizes (ks : list K) (rows : list A) :
  NoDup ks ->
  list_sum (map (fun k => length (filter (fun r => eqb k (key r)) rows)) ks)
  = length (filter (fun r => existsb (fun k => eqb k (key r)) ks) rows).
Proof.
  intros Hnd. induction Hnd as [|k ks Hk Hnd IH]; simpl.
  - induction rows; simpl; auto.
  - rewrite IH. symmetry. apply length_filter_orb.
    intros x Hx. apply eqb_eq in Hx. subst k.
    destruct (existsb (fun k => eqb k (key x)) ks) eqn:E; [|reflexivity].
    apply existsb_exists in E. destruct E as [k [Hin E]].
    apply eqb_eq in E. subst k. contradiction.
Qed.

(** GROUP BY loses no row and counts none twice. *)
Lemma group_by_sizes (rows : list A) :
  list_sum (map (fun kg => length (snd kg)) (Sql.group_by eqb key rows))
  = length rows.
Proof.
  unfold Sql.group_by. rewrite map_map. cbn [snd].
  rewrite group_sizes by apply NoDup_distinct.
  f_equal. apply forallb_filter_id. apply forallb_forall. intros r Hr.
  apply existsb_exists. exists (key r). split.
  - apply In_distinct_iff. now apply in_map.
  - now apply eqb_eq.
Qed.

End Partition.

Lemma Zsum_insert_row {A : Type} (before : A -> A -> bool) (f : A -> Z)
  (x : A) (l : list A) :
  fold_right Z.add 0 (map f (Sql.insert_row before x l))
  = f x + fold_right Z.add 0 (map f l).
Proof.
  induction l as [|y l IH]; simpl; [reflexivity|].
  destruct (before x y); simpl; [reflexivity | rewrite IH; lia].
Qed.

(** Sorting does not change the total of a column. *)
Lemma Zsum_order_by {A : Type} (before : A -> A -> bool) (f : A -> Z)
  (l : list A) :
  fold_right Z.add 0 (map f (Sql.order_by before l))
  = fold_right Z.add 0 (map f l).
Proof.
  induction l as [|x l IH]; simpl; [reflexivity|].
  now rewrite Zsum_insert_row, IH.
Qed.

Lemma Zsum_group_counts {A K : Type} (gs : list (K * list A)) :
  fold_right Z.add 0 (map (fun kg => Sql.COUNT (snd kg)) gs)
  = Z.of_nat (list_sum (map (fun kg => length (snd kg)) gs)).
Proof.
  induction gs as [|g gs IH]; simpl; [reflexivity|].
  rewrite IH. unfold Sql.COUNT. lia.
Qed.

(** The reports by category, by hour and by day of the week have no
    filter: their [total_txns] add up to the number of rows of the table,
    whatever buckets the rows have. *)
Lemma fraud_by_category_counts_every_row (t : list Row) :
  fold_right Z.add 0 (map ByCategory.total_txns (fraud_by_category t))
  = Sql.COUNT t.
Proof.
  unfold fraud_by_category. rewrite Zsum_order_by, map_map.
  rewrite (map_ext _ (fun kg => Sql.COUNT (snd kg))) by now intros [k g].
  rewrite Zsum_group_counts, group_by_sizes; [reflexivity|].
  apply String.eqb_eq.
Qed.

Lemma rate_rows_count {K : Type} (gs : list (K * list Row)) :
  map Rate.total_txns (map rate_row gs) = map (fun kg => Sql.COUNT (snd kg)) gs.
Proof. rewrite map_map. apply map_ext. now intros [k g]. Qed.

Lemma fraud_by_hour_counts_every_row (t : list Row) :
  fold_right Z.add 0 (map Rate.total_txns (fraud_by_hour t)) = Sql.COUNT t.
Proof.
  unfold fraud_by_hour. rewrite Zsum_order_by, rate_rows_count.
  rewrite Zsum_group_counts, group_by_sizes; [reflexivity|].
  apply Z.eqb_eq.
Qed.

Lemma fraud_by_day_of_week_counts_every_row (t : list Row) :
  fold_right Z.add 0 (map Rate.total_txns (fraud_by_day_of_week t))
  = Sql.COUNT t.
Proof.
  unfold fraud_by_day_of_week. rewrite Zsum_order_by, rate_rows_count.
  rewrite Zsum_group_counts, group_by_sizes; [reflexivity|].
  apply Z.eqb_eq.
Qed.


(** ** Sorting and limits *)

Section Ordering.

Context {A : Type} (before : A -> A -> bool).

Lemma insert_row_perm (x : A) (l : list A) :
  Permutation (Sql.insert_row before x l) (x :: l).
Proof.
  induction l as [|y l IH]; simpl; [reflexivity|].
  destruct (before x y); [reflexivity|].
  rewrite IH. apply perm_swap.
Qed.

(** ORDER BY rearranges the rows and does nothing else. *)
Lemma order_by_perm (l : list A) : Permutation (Sql.order_by before l) l.
Proof.
  induction l as [|x l IH]; simpl; [reflexivity|].
  rewrite insert_row_perm. now constructor.
Qed.

Hypothesis before_total : forall x y, before x y = false -> before y x = true.
Hypothesis before_trans :
  forall x y z, before x y = true -> before y z = true -> before x z = true.

Lemma insert_row_sorted (x : A) (l : list A) :
  StronglySorted (fun a b => before a b = true) l ->
  StronglySorted (fun a b => before a b = true) (Sql.insert_row before x l).
Proof.
  induction 1 as [|y l Hs IH Hy]; simpl.
  - repeat constructor.
  - destruct (before x y) eqn:E.
    + constructor; [now constructor|]. constructor; [assumption|].
      rewrite Forall_forall in *. intros z Hz.
      eapply before_trans; [exact E | now apply Hy].
    + constructor; [assumption|].
      rewrite Forall_forall in *. intros z Hz.
      apply In_insert_row in Hz. destruct Hz as [->|Hz].
      * now apply before_total.
      * now apply Hy.
Qed.

(** After ORDER BY every row may stand before all the rows behind it. *)
Lemma order_by_sorted (l : list A) :
  StronglySorted (fun a b => before a b = true) (Sql.order_by before l).
Proof.
  induction l as [|x l IH]; simpl; [constructor | now apply insert_row_sorted].
Qed.

End Ordering.

Lemma StronglySorted_app {A : Type} (R : A -> A -> Prop) (l1 l2 : list A) :
  StronglySorted R (l1 ++ l2) ->
  StronglySorted R l1 /\ forall a b, In a l1 -> In b l2 -> R a b.
Proof.
  induction l1 as [|x l1 IH]; simpl; intros H.
  - split; [constructor | contradiction].
  - inversion H as [|y l Hs Hx]; subst. destruct (IH Hs) as [Hs1 Hab].
    split.
    + constructor; [assumption|].
      rewrite Forall_forall in *. intros z Hz. apply Hx, in_or_app. now left.
    + intros a b [<-|Ha] Hb.
      * rewrite Forall_forall in Hx. apply Hx, in_or_app. now right.
      * now apply Hab.
Qed.

(** LIMIT keeps a prefix: at most [n] rows, all of them when there are
    fewer, and whatever it drops stood behind what it keeps. *)
Lemma LIMIT_split {A : Type} (n : Z) (l : list A) :
  exists dropped, l = Sql.LIMIT n l ++ dropped
                  /\ (dropped <> [] -> Z.of_nat (length (Sql.LIMIT n l)) = n).
Proof.
  unfold Sql.LIMIT. destruct (Z.ltb_spec n 0).
  - exists []. split; [now rewrite app_nil_r | congruence].
  - exists (skipn (Z.to_nat n) l). split; [now rewrite firstn_skipn|].
    intros Hd. rewrite length_firstn.
    destruct (Nat.le_gt_cases (length l) (Z.to_nat n)) as [Hle|Hgt].
    + rewrite skipn_all2 in Hd by assumption. congruence.
    + lia.
Qed.

Lemma LIMIT_length {A : Type} (n : Z) (l : list A) :
  0 <= n -> Z.of_nat (length (Sql.LIMIT n l)) <= n.
Proof.
  intros Hn. unfold Sql.LIMIT. destruct (Z.ltb_spec n 0); [lia|].
  rewrite length_firstn. lia.
Qed.

Lemma real_leb_total (x y : option Q) :
  Sql.real_leb x y = false -> Sql.real_leb y x = true.
Proof.
  destruct x as [a|], y as [b|]; simpl; try congruence.
  intros H. apply Qle_bool_false in H. apply Qle_bool_iff. lra.
Qed.

Lemma real_leb_trans (x y z : option Q) :
  Sql.real_leb x y = true -> Sql.real_leb y z = true -> Sql.real_leb x z = true.
Proof.
  destruct x as [a|], y as [b|], z as [c|]; simpl; try congruence.
  rewrite !Qle_bool_iff. lra.
Qed.

Lemma int_leb_total (x y : option Z) :
  Sql.int_leb x y = false -> Sql.int_leb y x = true.
Proof. destruct x, y; simpl; try congruence; lia. Qed.

Lemma int_leb_trans (x y z : option Z) :
  Sql.int_leb x y = true -> Sql.int_leb y z = true -> Sql.int_leb x z = true.
Proof. destruct x, y, z; simpl; try congruence; lia. Qed.

(** Sorting by a nullable real column, largest first. *)
Lemma order_by_real_desc_sorted {A : Type} (f : A -> option Q) (l : list A) :
  StronglySorted (fun a b => Sql.real_leb (f b) (f a) = true)
    (Sql.order_by (fun a b => Sql.real_leb (f b) (f a)) l).
Proof.
  apply (order_by_sorted (fun a b => Sql.real_leb (f b) (f a))).
  - intros x y. apply real_leb_total.
  - intros x y z Hxy Hyz. eapply real_leb_trans; eassumption.
Qed.

Lemma LIMIT_sorted {A : Type} (R : A -> A -> Prop) (n : Z) (l : list A) :
  StronglySorted R l -> StronglySorted R (Sql.LIMIT n l).
Proof.
  intros H. destruct (LIMIT_split n l) as [d [E _]].
  rewrite E in H. now apply StronglySorted_app in H.
Qed.

(** The reports with [ORDER BY fraud_rate_pct DESC] list their rows by
    falling rate: no row has a rate below that of a row behind it (NULL
    counting as the lowest rate). *)
Theorem rate_reports_sorted (t : list Row) :
  StronglySorted
    (fun a b => Sql.real_leb (ByCategory.fraud_rate_pct b)
                             (ByCategory.fraud_rate_pct a) = true)
    (fraud_by_category t)
  /\ StronglySorted
       (fun a b => Sql.real_leb (Rate.fraud_rate_pct b) (Rate.fraud_rate_pct a)
                   = true)
       (fraud_by_amount_bucket t)
  /\ StronglySorted
       (fun a b => Sql.real_leb (Rate.fraud_rate_pct b) (Rate.fraud_rate_pct a)
                   = true)
       (fraud_by_age_group t)
  /\ StronglySorted
       (fun a b => Sql.real_leb (Rate.fraud_rate_pct b) (Rate.fraud_rate_pct a)
                   = true)
       (fraud_by_city_size t)
  /\ StronglySorted
       (fun a b => Sql.real_leb (HighRiskMerchants.fraud_rate_pct b)
                                (HighRiskMerchants.fraud_rate_pct a) = true)
       (high_risk_merchants t).
Proof.
  repeat apply conj.
  - apply (order_by_real_desc_sorted ByCategory.fraud_rate_pct).
  - apply (order_by_real_desc_sorted Rate.fraud_rate_pct).
  - apply (order_by_real_desc_sorted Rate.fraud_rate_pct).
  - apply (order_by_real_desc_sorted Rate.fraud_rate_pct).
  - apply LIMIT_sorted.
    apply (order_by_real_desc_sorted HighRiskMerchants.fraud_rate_pct).
Qed.

Lemma StronglySorted_weaken {A : Type} (R S : A -> A -> Prop) (l : list A) :
  (forall a b, R a b -> S a b) -> StronglySorted R l -> StronglySorted S l.
Proof.
  intros HRS. induction 1 as [|x l Hs IH Hx]; constructor; [assumption|].
  eapply Forall_impl; [|exact Hx]. intros b. apply HRS.
Qed.

(** The reports by hour and by day of the week list their keys in rising
    order, and the report by state lists its rows by falling number of
    fraud transactions. *)
Theorem key_reports_sorted (t : list Row) (n : Z) :
  StronglySorted (fun a b => Rate.key a <= Rate.key b) (fraud_by_hour t)
  /\ StronglySorted (fun a b => Rate.key a <= Rate.key b)
       (fraud_by_day_of_week t)
  /\ StronglySorted
       (fun a b => Sql.int_leb (Rate.fraud_txns b) (Rate.fraud_txns a) = true)
       (fraud_by_state t n).
Proof.
  assert (Hasc : forall l, StronglySorted (fun a b => Rate.key a <= Rate.key b)
                             (Sql.order_by by_key_asc l)).
  { intros l.
    eapply StronglySorted_weaken;
      [| apply (order_by_sorted by_key_asc); unfold by_key_asc; intros; lia].
    unfold by_key_asc. intros a b H. simpl in H. lia. }
  repeat apply conj; try apply Hasc.
  apply LIMIT_sorted.
  apply (order_by_sorted
           (fun a b => Sql.int_leb (Rate.fraud_txns b) (Rate.fraud_txns a))).
  - intros x y. apply int_leb_total.
  - intros x y z Hxy Hyz. eapply int_leb_trans; eassumption.
Qed.

(** ** The keys of a grouped report *)

Section Keys.

Context {A K : Type} (eqb : K -> K -> bool) (key : A -> K).
Hypothesis eqb_eq : forall x y, eqb x y = true <-> x = y.

Lemma group_by_keys (rows : list A) :
  map fst (Sql.group_by eqb key rows) = Sql.distinct eqb (map key rows).
Proof.
  unfold Sql.group_by. rewrite map_map. cbn [fst]. apply map_id.
Qed.

(** GROUP BY makes one group for each key value of the table. *)
Lemma group_by_keys_spec (rows : list A) :
  NoDup (map fst (Sql.group_by eqb key rows))
  /\ forall k, In k (map fst (Sql.group_by eqb key rows)) <-> In k (map key rows).
Proof.
  rewrite group_by_keys. split.
  - now apply NoDup_distinct.
  - intros k. now apply In_distinct_iff.
Qed.

End Keys.

Lemma rate_rows_key {K : Type} (gs : list (K * list Row)) :
  map Rate.key (map rate_row gs) = map fst gs.
Proof. rewrite map_map. apply map_ext. now intros [k g]. Qed.

(** The keys of a report [SELECT key, ... GROUP BY key ORDER BY ...]. *)
Lemma rate_report_keys {K : Type} (eqb : K -> K -> bool) (key : Row -> K)
  (before : Rate.row K -> Rate.row K -> bool) (rows : list Row) :
  (forall x y, eqb x y = true <-> x = y) ->
  NoDup (map Rate.key
           (Sql.order_by before (map rate_row (Sql.group_by eqb key rows))))
  /\ forall k,
       In k (map Rate.key
               (Sql.order_by before (map rate_row (Sql.group_by eqb key rows))))
       <-> In k (map key rows).
Proof.
  intros eqb_eq.
  destruct (group_by_keys_spec eqb key eqb_eq rows) as [Hnd Hin].
  assert (P : Permutation
                (map Rate.key (Sql.order_by before
                                 (map rate_row (Sql.group_by eqb key rows))))
                (map fst (Sql.group_by eqb key rows))).
  { rewrite <- rate_rows_key. apply Permutation_map, order_by_perm. }
  split.
  - eapply Permutation_NoDup; [symmetry; exact P | exact Hnd].
  - intros k. rewrite <- Hin. split; apply Permutation_in;
      [exact P | symmetry; exact P].
Qed.

Lemma key_eqb_eq (x y : option string) :
  Sql.key_eqb String.eqb x y = true <-> x = y.
Proof.
  destruct x as [a|], y as [b|]; simpl; try (split; congruence).
  rewrite String.eqb_eq. split; congruence.
Qed.

(** A label that [pd.cut] hands out is one of the labels it was given. *)
Lemma cut_In (bins : list Pandas.edge) (labels : list string) (x : Q)
  (l : string) :
  Pandas.cut bins labels x = Some l -> In l labels.
Proof.
  unfold Pandas.cut.
  destruct ((_ =? 0)%nat || _); [discriminate | apply nth_error_In].
Qed.

Lemma In_range (n : nat) (z : Z) :
  0 <= z < Z.of_nat n -> In z (map Z.of_nat (seq 0 n)).
Proof.
  intros H. apply in_map_iff. exists (Z.to_nat z). split; [lia|].
  apply in_seq. lia.
Qed.

(** The clock columns of a loaded row are in range. *)
Lemma clock_columns_in_range (t : Transaction) :
  0 <= txn_hour (derive t) <= 23 /\ 0 <= txn_day_of_week (derive t) <= 6.
Proof.
  cbn [derive txn_hour txn_day_of_week].
  unfold Pandas.dt_hour, Pandas.dt_dayofweek.
  pose proof (Z.mod_pos_bound (trans_date_trans_time t / Pandas.ns_per_hour) 24).
  pose proof (Z.mod_pos_bound (trans_date_trans_time t / Pandas.ns_per_day + 3) 7).
  lia.
Qed.

(** The reports by hour and by day of the week of a loaded table have one
    row for each hour, or day, that occurs in the table and none for the
    others: the keys are distinct and in range, so there are at most 24,
    or 7, rows. *)
Theorem clock_reports_shape (df : list Transaction) :
  (NoDup (map Rate.key (fraud_by_hour (load_data df)))
   /\ (forall h, In h (map Rate.key (fraud_by_hour (load_data df)))
                 <-> exists x, In x df /\ txn_hour (derive x) = h)
   /\ Forall (fun r => 0 <= Rate.key r <= 23) (fraud_by_hour (load_data df))
   /\ (length (fraud_by_hour (load_data df)) <= 24)%nat)
  /\ (NoDup (map Rate.key (fraud_by_day_of_week (load_data df)))
      /\ (forall d, In d (map Rate.key (fraud_by_day_of_week (load_data df)))
                    <-> exists x, In x df /\ txn_day_of_week (derive x) = d)
      /\ Forall (fun r => 0 <= Rate.key r <= 6)
           (fraud_by_day_of_week (load_data df))
      /\ (length (fraud_by_day_of_week (load_data df)) <= 7)%nat).
Proof.
  assert (Hkeys : forall (key : Row -> Z) k,
            In k (map key (load_data df))
            <-> exists x, In x df /\ key (derive x) = k).
  { intros key k. unfold load_data. rewrite map_map, in_map_iff.
    split; intros [x [H1 H2]]; exists x; tauto. }
  split.
  - destruct (rate_report_keys Z.eqb txn_hour by_key_asc (load_data df) Z.eqb_eq)
      as [Hnd Hin].
    fold (fraud_by_hour (load_data df)) in Hnd, Hin.
    assert (Hr : forall h, In h (map Rate.key (fraud_by_hour (load_data df)))
                           -> 0 <= h <= 23).
    { intros h Hh. apply Hin, Hkeys in Hh. destruct Hh as [x [_ <-]].
      apply clock_columns_in_range. }
    repeat apply conj.
    + exact Hnd.
    + intros h. now rewrite Hin, Hkeys.
    + apply Forall_forall. intros r Hr'. apply Hr. now apply in_map.
    + rewrite <- (length_map Rate.key).
      change 24%nat with (length (map Z.of_nat (seq 0 24))).
      apply NoDup_incl_length; [exact Hnd|].
      intros h Hh. apply In_range. apply Hr in Hh. lia.
  - destruct (rate_report_keys Z.eqb txn_day_of_week by_key_asc (load_data df)
                Z.eqb_eq) as [Hnd Hin].
    fold (fraud_by_day_of_week (load_data df)) in Hnd, Hin.
    assert (Hr : forall h, In h (map Rate.key (fraud_by_day_of_week (load_data df)))
                           -> 0 <= h <= 6).
    { intros h Hh. apply Hin, Hkeys in Hh. destruct Hh as [x [_ <-]].
      apply clock_columns_in_range. }
    repeat apply conj.
    + exact Hnd.
    + intros h. now rewrite Hin, Hkeys.
    + apply Forall_forall. intros r Hr'. apply Hr. now apply in_map.
    + rewrite <- (length_map Rate.key).
      change 7%nat with (length (map Z.of_nat (seq 0 7))).
      apply NoDup_incl_length; [exact Hnd|].
      intros h Hh. apply In_range. apply Hr in Hh. lia.
Qed.

(** ** The metrics of a group *)

Lemma fold_left_add (l : list Z) (a : Z) :
  fold_left Z.add l a = a + Sql.Zsum l.
Proof.
  unfold Sql.Zsum. revert a. induction l as [|x l IH]; intros a; simpl; [lia|].
  rewrite (IH (a + x)), (IH x). lia.
Qed.

Lemma Zsum_cons (x : Z) (l : list Z) : Sql.Zsum (x :: l) = x + Sql.Zsum l.
Proof. unfold Sql.Zsum at 1. simpl. apply fold_left_add. Qed.

(** [SUM(is_fraud)] over at least one row is a number. *)
Lemma sum_is_fraud_Some (g : list Row) :
  g <> [] ->
  sum_is_fraud g = Some (Sql.Zsum (map (fun r => is_fraud (txn r)) g)).
Proof.
  intros Hg. unfold sum_is_fraud, Sql.SUM_int. rewrite non_null_Some.
  destruct g; [congruence | reflexivity].
Qed.

(** With flags 0 and 1, [SUM(is_fraud)] counts the fraud rows. *)
Lemma Zsum_flags (g : list Row) :
  flags_01 g ->
  Sql.Zsum (map (fun r => is_fraud (txn r)) g) = Sql.COUNT (where_fraud g).
Proof.
  unfold flags_01, where_fraud, Sql.COUNT.
  induction 1 as [|x g Hx Hg IH]; [reflexivity|].
  cbn [map filter]. rewrite Zsum_cons, IH.
  destruct Hx as [-> | ->]; cbn [Z.eqb Pos.eqb length]; lia.
Qed.

Lemma COUNT_filter_le {A : Type} (f : A -> bool) (l : list A) :
  0 <= Sql.COUNT (filter f l) <= Sql.COUNT l.
Proof.
  unfold Sql.COUNT. pose proof (filter_length_le f l). lia.
Qed.

Lemma COUNT_pos {A : Type} (g : list A) : g <> [] -> 1 <= Sql.COUNT g.
Proof. destruct g; [congruence|]. unfold Sql.COUNT. simpl length. lia. Qed.

(** [ROUND(100.0 * SUM(is_fraud) / COUNT( * ), 2)] over at least one row:
    the division is defined. *)
Lemma rate_pct_Some (g : list Row) :
  g <> [] ->
  rate_pct g
  = Some (Sql.round2
            (100 * inject_Z (Sql.Zsum (map (fun r => is_fraud (txn r)) g))
             / inject_Z (Sql.COUNT g))).
Proof.
  intros Hg. unfold rate_pct. rewrite sum_is_fraud_Some by assumption.
  cbn [Sql.real option_map Sql.mul Sql.div].
  destruct (Qeq_bool (inject_Z (Sql.COUNT g)) 0) eqn:E; [|reflexivity].
  apply Qeq_bool_iff in E. unfold Qeq in E. simpl in E.
  pose proof (COUNT_pos g Hg). lia.
Qed.

Lemma round_half_away_bounds (q : Q) (n : Z) :
  (0 <= q <= inject_Z n)%Q -> 0 <= Sql.round_half_away q <= n.
Proof.
  intros [H0 Hn]. unfold Sql.round_half_away.
  assert (E : Qle_bool 0 q = true) by now apply Qle_bool_iff.
  rewrite E.
  pose proof (Qfloor_le (q + (1 # 2))) as Hlo.
  pose proof (Qlt_floor (q + (1 # 2))) as Hhi.
  set (z := Qfloor (q + (1 # 2))) in *.
  split.
  - assert (H : (0 < inject_Z (z + 1))%Q) by lra.
    unfold Qlt in H. simpl in H. lia.
  - assert (H : (inject_Z z <= inject_Z n + (1 # 2))%Q) by lra.
    unfold Qle, Qplus in H. simpl in H. lia.
Qed.

(** Rounding to two decimals keeps a value within 0 and 100. *)
Lemma round2_percentage (q : Q) :
  (0 <= q <= 100)%Q -> (0 <= Sql.round2 q <= 100)%Q.
Proof.
  intros H. unfold Sql.round2. rewrite Qred_correct.
  destruct (round_half_away_bounds (q * 100) 10000) as [Hlo Hhi].
  { change (inject_Z 10000) with 10000%Q. lra. }
  set (z := Sql.round_half_away (q * 100)) in *.
  assert (H1 : (0 <= inject_Z z)%Q) by (unfold Qle; simpl; lia).
  assert (H2 : (inject_Z z <= 10000)%Q) by (unfold Qle; simpl; lia).
  split.
  - apply Qle_shift_div_l; lra.
  - apply Qle_shift_div_r; lra.
Qed.

(** The rate of a group with flags 0 and 1. *)
Lemma rate_pct_percentage (g : list Row) :
  g <> [] -> flags_01 g -> is_percentage (rate_pct g).
Proof.
  intros Hg Hf. unfold is_percentage. rewrite rate_pct_Some by assumption.
  eexists. split; [reflexivity|]. apply round2_percentage.
  rewrite Zsum_flags by assumption.
  pose proof (COUNT_filter_le (fun r => is_fraud (txn r) =? 1) g) as Hc.
  fold (where_fraud g) in Hc. pose proof (COUNT_pos g Hg) as Hp.
  set (s := Sql.COUNT (where_fraud g)) in *. set (c := Sql.COUNT g) in *.
  assert (Hcq : (0 < inject_Z c)%Q) by (unfold Qlt; simpl; lia).
  assert (Hs0 : (0 <= inject_Z s)%Q) by (unfold Qle; simpl; lia).
  assert (Hsc : (inject_Z s <= inject_Z c)%Q) by (unfold Qle; simpl; lia).
  split.
  - apply Qle_shift_div_l; [assumption | lra].
  - apply Qle_shift_div_r; [assumption | lra].
Qed.

Lemma group_metrics_defined (g : list Row) :
  g <> [] -> metrics_defined (Sql.COUNT g) (sum_is_fraud g) (rate_pct g).
Proof.
  intros Hg. unfold metrics_defined.
  rewrite sum_is_fraud_Some, rate_pct_Some by assumption.
  repeat split; try discriminate. now apply COUNT_pos.
Qed.

Lemma group_metrics_sound (g : list Row) :
  g <> [] -> flags_01 g ->
  metrics_sound (Sql.COUNT g) (sum_is_fraud g) (rate_pct g).
Proof.
  intros Hg Hf. split; [|now apply rate_pct_percentage].
  rewrite sum_is_fraud_Some by assumption. eexists. split; [reflexivity|].
  rewrite Zsum_flags by assumption. apply COUNT_filter_le.
Qed.

Lemma flags_01_incl (g t : list Row) : incl g t -> flags_01 t -> flags_01 g.
Proof.
  unfold flags_01. rewrite !Forall_forall. intros Hi Ht r Hr. apply Ht, Hi, Hr.
Qed.

Lemma Forall_order_by {A : Type} (before : A -> A -> bool) (P : A -> Prop)
  (l : list A) :
  Forall P l -> Forall P (Sql.order_by before l).
Proof.
  rewrite !Forall_forall. intros H x Hx. apply H. now apply In_order_by in Hx.
Qed.

Lemma Forall_LIMIT {A : Type} (n : Z) (P : A -> Prop) (l : list A) :
  Forall P l -> Forall P (Sql.LIMIT n l).
Proof.
  rewrite !Forall_forall. intros H x Hx. apply H. now apply In_LIMIT in Hx.
Qed.

Lemma Forall_HAVING {A : Type} (f : A -> bool) (P : A -> Prop) (l : list A) :
  Forall P l -> Forall P (filter f l).
Proof.
  rewrite !Forall_forall. intros H x Hx. apply H. now apply filter_In in Hx.
Qed.

(** What holds of every non-empty part of the table holds of every
    group. *)
Lemma Forall_groups {A K : Type} (eqb : K -> K -> bool) (key : A -> K)
  (rows : list A) (P : K * list A -> Prop) :
  (forall x, eqb x x = true) ->
  (forall k g, g <> [] -> incl g rows -> P (k, g)) ->
  Forall P (Sql.group_by eqb key rows).
Proof.
  intros Hrefl HP. apply Forall_forall. intros [k g] H. apply HP.
  - eapply group_not_empty; eassumption.
  - apply In_group_by in H. destruct H as [-> _]. apply incl_filter.
Qed.

Lemma key_eqb_refl (x : option string) : Sql.key_eqb String.eqb x x = true.
Proof. now apply key_eqb_eq. Qed.

Lemma pair_eqb_refl (x : string * string) :
  Sql.pair_eqb String.eqb String.eqb x x = true.
Proof. unfold Sql.pair_eqb. now rewrite !String.eqb_refl. Qed.

(** Peels ORDER BY, LIMIT, HAVING and the select list off a report and
    leaves a goal about one group. *)
Ltac to_groups :=
  repeat first
    [ apply Forall_LIMIT | apply Forall_order_by ];
  apply Forall_map;
  repeat apply Forall_HAVING;
  apply Forall_groups;
  [ first [ apply String.eqb_refl | apply Z.eqb_refl | apply key_eqb_refl
          | apply pair_eqb_refl ]
  | intros ?k ?g ?Hne ?Hincl ].

(** In every grouped report each row stands for at least one transaction,
    and neither its fraud count nor its fraud rate is NULL: no group is
    empty, so the rate never divides by zero. *)
Theorem grouped_metrics_defined (t : list Row) (n : Z) :
  Forall (fun r => metrics_defined (ByCategory.total_txns r)
                     (ByCategory.fraud_txns r) (ByCategory.fraud_rate_pct r))
         (fraud_by_category t)
  /\ Forall rate_row_defined (fraud_by_hour t)
  /\ Forall rate_row_defined (fraud_by_day_of_week t)
  /\ Forall rate_row_defined (fraud_by_amount_bucket t)
  /\ Forall rate_row_defined (fraud_by_state t n)
  /\ Forall rate_row_defined (fraud_by_gender t)
  /\ Forall rate_row_defined (fraud_by_age_group t)
  /\ Forall rate_row_defined (fraud_by_city_size t)
  /\ Forall (fun r => metrics_defined (HighRiskMerchants.total_txns r)
                        (HighRiskMerchants.fraud_txns r)
                        (HighRiskMerchants.fraud_rate_pct r))
            (high_risk_merchants t)
  /\ Forall rate_row_defined (fraud_trend_monthly t).
Proof.
  unfold fraud_by_category, fraud_by_hour, fraud_by_day_of_week,
    fraud_by_amount_bucket, fraud_by_state, fraud_by_gender,
    fraud_by_age_group, fraud_by_city_size, high_risk_merchants,
    fraud_trend_monthly.
  repeat apply conj; to_groups; now apply group_metrics_defined.
Qed.

(** When the flag column holds only 0 and 1, every row of every grouped
    report has a fraud count between 0 and its number of transactions and
    a fraud rate between 0 and 100. *)
Theorem grouped_metrics_sound (t : list Row) (n : Z) :
  flags_01 t ->
  Forall (fun r => metrics_sound (ByCategory.total_txns r)
                     (ByCategory.fraud_txns r) (ByCategory.fraud_rate_pct r))
         (fraud_by_category t)
  /\ Forall rate_row_sound (fraud_by_hour t)
  /\ Forall rate_row_sound (fraud_by_day_of_week t)
  /\ Forall rate_row_sound (fraud_by_amount_bucket t)
  /\ Forall rate_row_sound (fraud_by_state t n)
  /\ Forall rate_row_sound (fraud_by_gender t)
  /\ Forall rate_row_sound (fraud_by_age_group t)
  /\ Forall rate_row_sound (fraud_by_city_size t)
  /\ Forall (fun r => metrics_sound (HighRiskMerchants.total_txns r)
                        (HighRiskMerchants.fraud_txns r)
                        (HighRiskMerchants.fraud_rate_pct r))
            (high_risk_merchants t)
  /\ Forall rate_row_sound (fraud_trend_monthly t).
Proof.
  intros Hf.
  unfold fraud_by_category, fraud_by_hour, fraud_by_day_of_week,
    fraud_by_amount_bucket, fraud_by_state, fraud_by_gender,
    fraud_by_age_group, fraud_by_city_size, high_risk_merchants,
    fraud_trend_monthly.
  repeat apply conj; to_groups;
    (apply group_metrics_sound; [assumption|]);
    (eapply flags_01_incl; [|exact Hf]);
    first [ assumption
          | eapply incl_tran; [eassumption | apply incl_filter] ].
Qed.

Lemma grouped_metrics_sound_witness :
  Forall rate_row_sound (fraud_by_hour (load_data three_frauds)).
Proof.
  refine (proj1 (proj2 (grouped_metrics_sound (load_data three_frauds) 15 _))).
  repeat (constructor; [first [now left | now right]|]). constructor.
Defined.

(** ** Reports add up *)

Section Totals.

Context {A K : Type} (eqb : K -> K -> bool) (key : A -> K) (f : A -> Z).
Hypothesis eqb_eq : forall x y, eqb x y = true <-> x = y.

Lemma total_filter_orb (p q : A -> bool) (l : list A) :
  (forall x, p x = true -> q x = false) ->
  total f (filter (fun x => p x || q x) l)
  = total f (filter p l) + total f (filter q l).
Proof.
  intros Hpq. unfold total. induction l as [|x l IH]; simpl; [reflexivity|].
  destruct (p x) eqn:Ep; simpl.
  - rewrite (Hpq x Ep). simpl. rewrite IH. lia.
  - destruct (q x); simpl; rewrite IH; lia.
Qed.

Lemma group_totals_of (ks : list K) (rows : list A) :
  NoDup ks ->
  total (fun k => total f (filter (fun r => eqb k (key r)) rows)) ks
  = total f (filter (fun r => existsb (fun k => eqb k (key r)) ks) rows).
Proof.
  intros Hnd. induction Hnd as [|k ks Hk Hnd IH].
  - unfold total. simpl. induction rows; simpl; auto.
  - unfold total at 1. cbn [map fold_right]. fold (total f).
    change (fold_right Z.add 0
              (map (fun k0 => total f (filter (fun r => eqb k0 (key r)) rows)) ks))
      with (total (fun k0 => total f (filter (fun r => eqb k0 (key r)) rows)) ks).
    rewrite IH. cbn [existsb]. symmetry. apply total_filter_orb.
    intros x Hx. apply eqb_eq in Hx. subst k.
    destruct (existsb (fun k => eqb k (key x)) ks) eqn:E; [|reflexivity].
    apply existsb_exists in E. destruct E as [k [Hin E]].
    apply eqb_eq in E. subst k. contradiction.
Qed.

(** Whatever is added up over the table is the sum of what is added up
    over the groups: GROUP BY loses nothing and counts nothing twice. *)
Lemma group_totals (rows : list A) :
  total (fun kg => total f (snd kg)) (Sql.group_by eqb key rows) = total f rows.
Proof.
  unfold Sql.group_by, total at 1. rewrite map_map. cbn [snd].
  change (total (fun k => total f (filter (fun r => eqb k (key r)) rows))
            (Sql.distinct eqb (map key rows)) = total f rows).
  rewrite group_totals_of by now apply NoDup_distinct.
  f_equal. apply forallb_filter_id. apply forallb_forall. intros r Hr.
  apply existsb_exists. exists (key r). split.
  - apply In_distinct_iff; [assumption | now apply in_map].
  - now apply eqb_eq.
Qed.

End Totals.

Lemma Zsum_total (l : list Z) : Sql.Zsum l = total (fun x => x) l.
Proof.
  unfold total. rewrite map_id.
  induction l as [|x l IH]; [reflexivity|]. rewrite Zsum_cons, IH. reflexivity.
Qed.

Lemma COUNT_total {A : Type} (g : list A) : Sql.COUNT g = total (fun _ => 1) g.
Proof.
  unfold Sql.COUNT, total. induction g as [|x g IH]; [reflexivity|].
  cbn [length map fold_right]. rewrite <- IH. lia.
Qed.

(** [SUM(is_fraud)] read as a number, the empty sum as 0. *)
Lemma sum_is_fraud_total (g : list Row) :
  int_or_0 (sum_is_fraud g) = total (fun r => is_fraud (txn r)) g.
Proof.
  destruct g as [|x g]; [reflexivity|].
  rewrite sum_is_fraud_Some by discriminate. cbn [int_or_0].
  rewrite Zsum_total. unfold total. now rewrite map_map.
Qed.

Lemma total_order_by {A : Type} (before : A -> A -> bool) (f : A -> Z)
  (l : list A) :
  total f (Sql.order_by before l) = total f l.
Proof. apply Zsum_order_by. Qed.

Lemma total_map {A B : Type} (f : B -> Z) (h : A -> B) (l : list A) :
  total f (map h l) = total (fun x => f (h x)) l.
Proof. unfold total. now rewrite map_map. Qed.

Lemma total_ext {A : Type} (f h : A -> Z) (l : list A) :
  (forall x, f x = h x) -> total f l = total h l.
Proof. intros E. unfold total. f_equal. now apply map_ext. Qed.

(** The transactions and the fraud counts of the groups of a report add
    up to those of the rows that were grouped. *)
Lemma rate_rows_add_up {K : Type} (eqb : K -> K -> bool) (key : Row -> K)
  (rows : list Row) :
  (forall x y, eqb x y = true <-> x = y) ->
  total Rate.total_txns (map rate_row (Sql.group_by eqb key rows))
  = Sql.COUNT rows
  /\ total (fun r => int_or_0 (Rate.fraud_txns r))
       (map rate_row (Sql.group_by eqb key rows))
     = int_or_0 (sum_is_fraud rows).
Proof.
  intros eqb_eq. rewrite !total_map. split.
  - rewrite (total_ext _ (fun kg => total (fun _ => 1) (snd kg)))
      by (intros [k g]; apply COUNT_total).
    rewrite group_totals by assumption. symmetry. apply COUNT_total.
  - rewrite (total_ext _ (fun kg => total (fun r => is_fraud (txn r)) (snd kg)))
      by (intros [k g]; apply sum_is_fraud_total).
    rewrite group_totals by assumption. symmetry. apply sum_is_fraud_total.
Qed.

(** The reports that neither filter nor limit (by category, hour, day of
    the week, amount bucket, gender and month) split the table: their
    [total_txns] add up to the overview's [total_txns], and their fraud
    counts to the overview's [fraud_count] (NULL read as 0). *)
Theorem reports_add_up_to_overview (t : list Row) :
  let all := Overview.total_txns (fraud_overview t) in
  let bad := int_or_0 (Overview.fraud_count (fraud_overview t)) in
  (total ByCategory.total_txns (fraud_by_category t) = all
   /\ total (fun r => int_or_0 (ByCategory.fraud_txns r)) (fraud_by_category t)
      = bad)
  /\ (total Rate.total_txns (fraud_by_hour t) = all
      /\ total (fun r => int_or_0 (Rate.fraud_txns r)) (fraud_by_hour t) = bad)
  /\ (total Rate.total_txns (fraud_by_day_of_week t) = all
      /\ total (fun r => int_or_0 (Rate.fraud_txns r)) (fraud_by_day_of_week t)
         = bad)
  /\ (total Rate.total_txns (fraud_by_amount_bucket t) = all
      /\ total (fun r => int_or_0 (Rate.fraud_txns r)) (fraud_by_amount_bucket t)
         = bad)
  /\ (total Rate.total_txns (fraud_by_gender t) = all
      /\ total (fun r => int_or_0 (Rate.fraud_txns r)) (fraud_by_gender t) = bad)
  /\ (total Rate.total_txns (fraud_trend_monthly t) = all
      /\ total (fun r => int_or_0 (Rate.fraud_txns r)) (fraud_trend_monthly t)
         = bad).
Proof.
  cbn zeta. cbn [fraud_overview Overview.total_txns Overview.fraud_count].
  unfold fraud_by_category, fraud_by_hour, fraud_by_day_of_week,
    fraud_by_amount_bucket, fraud_by_gender, fraud_trend_monthly.
  rewrite !total_order_by.
  repeat apply conj;
    try (apply rate_rows_add_up;
         first [ apply String.eqb_eq | apply Z.eqb_eq | apply key_eqb_eq ]).
  - rewrite total_map.
    rewrite (total_ext _ (fun kg => total (fun _ => 1) (snd kg)))
      by (intros [k g]; apply COUNT_total).
    rewrite group_totals by apply String.eqb_eq. symmetry. apply COUNT_total.
  - rewrite total_map.
    rewrite (total_ext _ (fun kg => total (fun r => is_fraud (txn r)) (snd kg)))
      by (intros [k g]; apply sum_is_fraud_total).
    rewrite group_totals by apply String.eqb_eq.
    symmetry. apply sum_is_fraud_total.
Qed.

(** The reports by age group and by city size count exactly the rows that
    have the bucket: their [total_txns] add up to the number of rows
    whose [age_group], or [city_size], is not NULL, and so to no more
    than the table has rows. *)
Theorem bucket_reports_add_up (t : list Row) :
  (total Rate.total_txns (fraud_by_age_group t)
   = Sql.COUNT (filter (fun r => Sql.is_not_null (age_group r)) t)
   /\ total Rate.total_txns (fraud_by_age_group t) <= Sql.COUNT t)
  /\ (total Rate.total_txns (fraud_by_city_size t)
      = Sql.COUNT (filter (fun r => Sql.is_not_null (city_size r)) t)
      /\ total Rate.total_txns (fraud_by_city_size t) <= Sql.COUNT t).
Proof.
  unfold fraud_by_age_group, fraud_by_city_size. rewrite !total_order_by.
  split.
  - destruct (rate_rows_add_up (Sql.key_eqb String.eqb) age_group
                (filter (fun r => Sql.is_not_null (age_group r)) t) key_eqb_eq)
      as [E _].
    rewrite E. split; [reflexivity | apply COUNT_filter_le].
  - destruct (rate_rows_add_up (Sql.key_eqb String.eqb) city_size
                (filter (fun r => Sql.is_not_null (city_size r)) t) key_eqb_eq)
      as [E _].
    rewrite E. split; [reflexivity | apply COUNT_filter_le].
Qed.

(** ** One row for each key *)

Lemma category_rows_key (gs : list (string * list Row)) :
  map ByCategory.category (map category_row gs) = map fst gs.
Proof. rewrite map_map. apply map_ext. now intros [k g]. Qed.

(** The by-category report has exactly one row for each category that
    occurs in the table, and that row counts the transactions of its
    category. *)
Theorem one_row_per_category (t : list Row) :
  NoDup (map ByCategory.category (fraud_by_category t))
  /\ (forall c, In c (map ByCategory.category (fraud_by_category t))
                <-> exists r, In r t /\ category (txn r) = c)
  /\ Forall (fun r => ByCategory.total_txns r
                      = Sql.COUNT (category_rows t (ByCategory.category r)))
            (fraud_by_category t).
Proof.
  destruct (group_by_keys_spec String.eqb (fun r => category (txn r))
              String.eqb_eq t) as [Hnd Hin].
  assert (P : Permutation (map ByCategory.category (fraud_by_category t))
                (map fst (Sql.group_by String.eqb
                            (fun r => category (txn r)) t))).
  { rewrite <- category_rows_key. apply Permutation_map, order_by_perm. }
  repeat apply conj.
  - eapply Permutation_NoDup; [symmetry; exact P | exact Hnd].
  - intros c. split.
    + intros H. apply (Permutation_in _ P), Hin, in_map_iff in H.
      destruct H as [r [E Hr]]. now exists r.
    + intros [r [Hr E]]. apply (Permutation_in _ (Permutation_sym P)), Hin.
      rewrite <- E. now apply (in_map (fun r => category (txn r))).
  - apply Forall_forall. intros r H. unfold fraud_by_category in H.
    apply In_order_by, in_map_iff in H. destruct H as [[k g] [<- H]].
    apply In_group_by in H. destruct H as [-> _]. reflexivity.
Qed.

Lemma In_loaded_column {B : Type} (col : Row -> B) (f : Row -> bool)
  (df : list Transaction) (k : B) :
  In k (map col (filter f (load_data df))) ->
  exists x, In x df /\ col (derive x) = k /\ f (derive x) = true.
Proof.
  intros H. apply in_map_iff in H. destruct H as [r [E H]].
  apply filter_In in H. destruct H as [H Hf]. unfold load_data in H.
  apply in_map_iff in H. destruct H as [x [<- Hx]]. now exists x.
Qed.

(** The bucket reports of a loaded table have one row for each bucket in
    use.  By age group and by city size no row has a NULL key and every
    key is one of the labels of the cut, so there are at most 6, or 4,
    rows; by amount bucket the key is NULL or one of the four labels, at
    most 5 rows. *)
Theorem bucket_reports_shape (df : list Transaction) :
  (NoDup (map Rate.key (fraud_by_age_group (load_data df)))
   /\ Forall (fun r => exists l, Rate.key r = Some l /\ In l age_labels)
        (fraud_by_age_group (load_data df))
   /\ (length (fraud_by_age_group (load_data df)) <= 6)%nat)
  /\ (NoDup (map Rate.key (fraud_by_city_size (load_data df)))
      /\ Forall (fun r => exists l, Rate.key r = Some l /\ In l city_labels)
           (fraud_by_city_size (load_data df))
      /\ (length (fraud_by_city_size (load_data df)) <= 4)%nat)
  /\ (NoDup (map Rate.key (fraud_by_amount_bucket (load_data df)))
      /\ Forall (fun r => Rate.key r = None
                          \/ exists l, Rate.key r = Some l /\ In l amount_labels)
           (fraud_by_amount_bucket (load_data df))
      /\ (length (fraud_by_amount_bucket (load_data df)) <= 5)%nat).
Proof.
  repeat apply conj.
  - apply (rate_report_keys _ _ _ _ key_eqb_eq).
  - apply Forall_forall. intros r Hr. apply (in_map Rate.key) in Hr.
    apply (rate_report_keys _ _ _ _ key_eqb_eq) in Hr.
    apply In_loaded_column in Hr. destruct Hr as [x [_ [E Hn]]].
    rewrite <- E in *. destruct (age_group (derive x)) as [l|] eqn:El;
      [|discriminate].
    exists l. split; [reflexivity|]. eapply cut_In. exact El.
  - rewrite <- (length_map Rate.key).
    change 6%nat with (length (map Some age_labels)).
    apply NoDup_incl_length; [apply (rate_report_keys _ _ _ _ key_eqb_eq)|].
    intros k Hk. apply (rate_report_keys _ _ _ _ key_eqb_eq) in Hk.
    apply In_loaded_column in Hk. destruct Hk as [x [_ [E Hn]]].
    rewrite <- E in *. destruct (age_group (derive x)) as [l|] eqn:El;
      [|discriminate].
    apply in_map. eapply cut_In. exact El.
  - apply (rate_report_keys _ _ _ _ key_eqb_eq).
  - apply Forall_forall. intros r Hr. apply (in_map Rate.key) in Hr.
    apply (rate_report_keys _ _ _ _ key_eqb_eq) in Hr.
    apply In_loaded_column in Hr. destruct Hr as [x [_ [E Hn]]].
    rewrite <- E in *. destruct (city_size (derive x)) as [l|] eqn:El;
      [|discriminate].
    exists l. split; [reflexivity|]. eapply cut_In. exact El.
  - rewrite <- (length_map Rate.key).
    change 4%nat with (length (map Some city_labels)).
    apply NoDup_incl_length; [apply (rate_report_keys _ _ _ _ key_eqb_eq)|].
    intros k Hk. apply (rate_report_keys _ _ _ _ key_eqb_eq) in Hk.
    apply In_loaded_column in Hk. destruct Hk as [x [_ [E Hn]]].
    rewrite <- E in *. destruct (city_size (derive x)) as [l|] eqn:El;
      [|discriminate].
    apply in_map. eapply cut_In. exact El.
  - apply (rate_report_keys _ _ _ _ key_eqb_eq).
  - apply Forall_forall. intros r Hr. apply (in_map Rate.key) in Hr.
    apply (rate_report_keys _ _ _ _ key_eqb_eq) in Hr.
    rewrite <- (filter_true (load_data df)) in Hr at 1.
    apply In_loaded_column in Hr. destruct Hr as [x [_ [E _]]].
    rewrite <- E. destruct (amount_bucket (derive x)) as [l|] eqn:El;
      [right | now left].
    exists l. split; [reflexivity|]. eapply cut_In. exact El.
  - rewrite <- (length_map Rate.key).
    change 5%nat with (length (None :: map Some amount_labels)).
    apply NoDup_incl_length; [apply (rate_report_keys _ _ _ _ key_eqb_eq)|].
    intros k Hk. apply (rate_report_keys _ _ _ _ key_eqb_eq) in Hk.
    rewrite <- (filter_true (load_data df)) in Hk at 1.
    apply In_loaded_column in Hk. destruct Hk as [x [_ [E _]]].
    rewrite <- E. destruct (amount_bucket (derive x)) as [l|] eqn:El;
      [right | now left].
    apply in_map. eapply cut_In. exact El.
Qed.

(** ** The reports with a limit *)

(** A row that ORDER BY and LIMIT leave out: the limit is reached, and
    every row kept may stand before it. *)
Lemma top_rows {A : Type} (before : A -> A -> bool) (n : Z) (l : list A)
  (x : A) :
  (forall a b, before a b = false -> before b a = true) ->
  (forall a b c, before a b = true -> before b c = true -> before a c = true) ->
  In x l ->
  In x (Sql.LIMIT n (Sql.order_by before l))
  \/ (Z.of_nat (length (Sql.LIMIT n (Sql.order_by before l))) = n
      /\ Forall (fun a => before a x = true)
           (Sql.LIMIT n (Sql.order_by before l))).
Proof.
  intros Htot Htrans Hx.
  pose proof (order_by_sorted before Htot Htrans l) as Hs.
  apply (In_order_by before) in Hx.
  destruct (LIMIT_split n (Sql.order_by before l)) as [d [E Hd]].
  rewrite E in Hx, Hs. apply in_app_or in Hx. destruct Hx as [Hx|Hx].
  - now left.
  - right. split.
    + apply Hd. intros ->. contradiction.
    + apply StronglySorted_app in Hs. destruct Hs as [_ Hs].
      apply Forall_forall. intros a Ha. now apply Hs.
Qed.

Lemma In_group_by_intro {A K : Type} (eqb : K -> K -> bool) (key : A -> K)
  (rows : list A) (k : K) :
  (forall x y, eqb x y = true <-> x = y) ->
  In k (map key rows) ->
  In (k, filter (fun r => eqb k (key r)) rows) (Sql.group_by eqb key rows).
Proof.
  intros eqb_eq H. unfold Sql.group_by.
  apply (in_map (fun k => (k, filter (fun r => eqb k (key r)) rows))).
  now apply In_distinct_iff.
Qed.

Lemma filter_not_empty_key {A K : Type} (eqb : K -> K -> bool) (key : A -> K)
  (rows : list A) (k : K) :
  (forall x y, eqb x y = true <-> x = y) ->
  filter (fun r => eqb k (key r)) rows <> [] -> In k (map key rows).
Proof.
  intros eqb_eq H.
  destruct (filter (fun r => eqb k (key r)) rows) as [|r g] eqn:E;
    [congruence|].
  assert (Hr : In r (filter (fun r => eqb k (key r)) rows))
    by (rewrite E; now left).
  apply filter_In in Hr. destruct Hr as [Hr Hk]. apply eqb_eq in Hk.
  rewrite Hk. now apply in_map.
Qed.

(** HAVING drops groups and so keeps the keys distinct. *)
Lemma NoDup_map_filter {G C : Type} (col : G -> C) (having : G -> bool)
  (groups : list G) :
  NoDup (map col groups) -> NoDup (map col (filter having groups)).
Proof.
  induction groups as [|x l IH]; simpl; intros H; [constructor|].
  inversion H as [|y l' Hx Hl]; subst.
  destruct (having x); simpl; [|now apply IH].
  constructor; [|now apply IH].
  intros Hin. apply Hx. apply in_map_iff in Hin.
  destruct Hin as [z [E Hz]]. apply filter_In in Hz.
  rewrite <- E. apply in_map. tauto.
Qed.

Lemma NoDup_map_LIMIT {A B : Type} (f : A -> B) (n : Z) (l : list A) :
  NoDup (map f l) -> NoDup (map f (Sql.LIMIT n l)).
Proof.
  intros H. destruct (LIMIT_split n l) as [d [E _]].
  rewrite E, map_app in H. now apply NoDup_app_remove_r in H.
Qed.

(** The repeat-fraud-cards report is a top 20: it has at most 20 rows,
    one card to a row, by falling [fraud_count]; a card with three fraud
    rows or more is in it, unless the report is full with 20 cards that
    have at least as many. *)
Theorem repeat_fraud_cards_top_20 (t : list Row) :
  (length (repeat_fraud_cards t) <= 20)%nat
  /\ NoDup (map RepeatFraudCards.cc_num (repeat_fraud_cards t))
  /\ StronglySorted
       (fun a b => RepeatFraudCards.fraud_count b
                   <= RepeatFraudCards.fraud_count a)
       (repeat_fraud_cards t)
  /\ forall k : Z,
       3 <= Sql.COUNT (card_fraud_rows t k) ->
       (exists r, In r (repeat_fraud_cards t) /\ RepeatFraudCards.cc_num r = k)
       \/ (length (repeat_fraud_cards t) = 20%nat
           /\ Forall (fun r => Sql.COUNT (card_fraud_rows t k)
                               <= RepeatFraudCards.fraud_count r)
                (repeat_fraud_cards t)).
Proof.
  set (before := fun a b => RepeatFraudCards.fraud_count b
                            <=? RepeatFraudCards.fraud_count a).
  assert (Htot : forall a b, before a b = false -> before b a = true)
    by (unfold before; intros; lia).
  assert (Htrans : forall a b c, before a b = true -> before b c = true ->
                                 before a c = true)
    by (unfold before; intros; lia).
  unfold repeat_fraud_cards. fold before. repeat apply conj.
  - pose proof (LIMIT_length 20
      (Sql.order_by before
         (map card_row
            (filter (fun kg => 3 <=? Sql.COUNT (snd kg))
               (Sql.group_by Z.eqb (fun r => cc_num (txn r)) (where_fraud t))))))
      as H.
    lia.
  - apply NoDup_map_LIMIT.
    eapply Permutation_NoDup;
      [symmetry; apply Permutation_map, order_by_perm|].
    rewrite map_map.
    rewrite (map_ext _ fst) by now intros [k g].
    apply NoDup_map_filter.
    apply (group_by_keys_spec Z.eqb _ Z.eqb_eq).
  - apply LIMIT_sorted.
    eapply StronglySorted_weaken; [|apply (order_by_sorted before Htot Htrans)].
    unfold before. intros a b H. simpl in H. lia.
  - intros k Hk.
    set (g := filter (fun r => k =? cc_num (txn r)) (where_fraud t)).
    assert (Eg : g = card_fraud_rows t k) by apply card_group.
    rewrite <- Eg in *.
    assert (Hin : In (card_row (k, g))
                    (map card_row
                       (filter (fun kg => 3 <=? Sql.COUNT (snd kg))
                          (Sql.group_by Z.eqb (fun r => cc_num (txn r))
                             (where_fraud t))))).
    { apply in_map. apply filter_In. split; [|cbn [snd]; lia].
      apply (In_group_by_intro Z.eqb _ _ _ Z.eqb_eq).
      apply (filter_not_empty_key Z.eqb _ _ _ Z.eqb_eq).
      fold g. apply COUNT_not_empty. lia. }
    destruct (top_rows before 20 _ _ Htot Htrans Hin) as [H|[Hlen Hall]].
    + left. exists (card_row (k, g)). split; [exact H | reflexivity].
    + right. split; [lia|].
      eapply Forall_impl; [|exact Hall].
      unfold before. intros a Ha. cbn in Ha. lia.
Qed.

Lemma repeat_fraud_cards_top_20_witness :
  (exists r, In r (repeat_fraud_cards (load_data three_frauds))
             /\ RepeatFraudCards.cc_num r = 111)
  \/ (length (repeat_fraud_cards (load_data three_frauds)) = 20%nat
      /\ Forall (fun r => Sql.COUNT (card_fraud_rows (load_data three_frauds) 111)
                          <= RepeatFraudCards.fraud_count r)
           (repeat_fraud_cards (load_data three_frauds))).
Proof.
  apply (proj2 (proj2 (proj2 (repeat_fraud_cards_top_20 (load_data three_frauds))))).
  vm_compute. discriminate.
Defined.

Lemma pair_eqb_eq (x y : string * string) :
  Sql.pair_eqb String.eqb String.eqb x y = true <-> x = y.
Proof.
  destruct x as [a b], y as [c d]. unfold Sql.pair_eqb. cbn [fst snd].
  rewrite andb_true_iff, !String.eqb_eq. split.
  - intros [-> ->]. reflexivity.
  - intros E. inversion E. tauto.
Qed.

(** The high-risk-merchants report is a top 20: at most 20 rows, one
    merchant and category to a row, each row counting the transactions of
    its merchant; a merchant with 20 transactions and 3 frauds or more is
    in it, unless the report is full with 20 merchants whose rate is at
    least as high. *)
Theorem high_risk_merchants_top_20 (t : list Row) :
  (length (high_risk_merchants t) <= 20)%nat
  /\ NoDup (map (fun r => (HighRiskMerchants.merchant r,
                           HighRiskMerchants.category r))
              (high_risk_merchants t))
  /\ Forall (fun r =>
               let g := merchant_rows t (HighRiskMerchants.merchant r)
                                        (HighRiskMerchants.category r) in
               HighRiskMerchants.total_txns r = Sql.COUNT g
               /\ HighRiskMerchants.fraud_txns r = sum_is_fraud g
               /\ HighRiskMerchants.fraud_rate_pct r = rate_pct g)
            (high_risk_merchants t)
  /\ forall m c : string,
       20 <= Sql.COUNT (merchant_rows t m c) ->
       Sql.ge_int (sum_is_fraud (merchant_rows t m c)) 3 = true ->
       (exists r, In r (high_risk_merchants t)
                  /\ HighRiskMerchants.merchant r = m
                  /\ HighRiskMerchants.category r = c)
       \/ (length (high_risk_merchants t) = 20%nat
           /\ Forall (fun r => Sql.real_leb (rate_pct (merchant_rows t m c))
                                 (HighRiskMerchants.fraud_rate_pct r) = true)
                (high_risk_merchants t)).
Proof.
  set (before := fun a b => Sql.real_leb (HighRiskMerchants.fraud_rate_pct b)
                                         (HighRiskMerchants.fraud_rate_pct a)).
  assert (Htot : forall a b, before a b = false -> before b a = true)
    by (unfold before; intros a b; apply real_leb_total).
  assert (Htrans : forall a b c, before a b = true -> before b c = true ->
                                 before a c = true)
    by (unfold before; intros a b c Hab Hbc; eapply real_leb_trans; eassumption).
  set (key := fun r : Row => (merchant (txn r), category (txn r))).
  set (having := fun kg : string * string * list Row =>
                   (20 <=? Sql.COUNT (snd kg))
                   && Sql.ge_int (sum_is_fraud (snd kg)) 3).
  change (high_risk_merchants t)
    with (Sql.LIMIT 20
            (Sql.order_by before
               (map merchant_row
                  (filter having
                     (Sql.group_by (Sql.pair_eqb String.eqb String.eqb) key t))))).
  repeat apply conj.
  - pose proof (LIMIT_length 20
      (Sql.order_by before
         (map merchant_row
            (filter having
               (Sql.group_by (Sql.pair_eqb String.eqb String.eqb) key t)))))
      as H.
    lia.
  - apply NoDup_map_LIMIT.
    eapply Permutation_NoDup;
      [symmetry; apply Permutation_map, order_by_perm|].
    rewrite map_map.
    rewrite (map_ext _ fst) by now intros [[m c] g].
    apply NoDup_map_filter.
    apply (group_by_keys_spec _ _ pair_eqb_eq).
  - apply Forall_forall. intros r H.
    apply In_LIMIT, In_order_by, in_map_iff in H.
    destruct H as [[[m c] g] [<- H]]. apply filter_In in H.
    destruct H as [H _]. apply In_group_by in H. destruct H as [Hg _].
    change (g = merchant_rows t m c) in Hg.
    cbn [merchant_row HighRiskMerchants.total_txns
         HighRiskMerchants.fraud_txns HighRiskMerchants.fraud_rate_pct
         HighRiskMerchants.merchant HighRiskMerchants.category fst snd].
    now rewrite <- Hg.
  - intros m c Hc Hs.
    assert (Hin : In (merchant_row ((m, c), merchant_rows t m c))
                    (map merchant_row
                       (filter having
                          (Sql.group_by (Sql.pair_eqb String.eqb String.eqb)
                             key t)))).
    { apply in_map. apply filter_In. split.
      - apply (In_group_by_intro _ key t (m, c) pair_eqb_eq).
        apply (filter_not_empty_key _ key t (m, c) pair_eqb_eq).
        change (merchant_rows t m c <> []). apply COUNT_not_empty. lia.
      - unfold having. cbn [snd]. rewrite Hs.
        apply andb_true_iff. split; [lia | reflexivity]. }
    destruct (top_rows before 20 _ _ Htot Htrans Hin) as [H|[Hlen Hall]].
    + left. exists (merchant_row ((m, c), merchant_rows t m c)).
      split; [exact H | split; reflexivity].
    + right. split; [lia|]. exact Hall.
Qed.

Lemma high_risk_merchants_top_20_witness :
  (exists r, In r (high_risk_merchants (load_data (merchant_with 15)))
             /\ HighRiskMerchants.merchant r = "kiosk"%string
             /\ HighRiskMerchants.category r = "misc_pos"%string)
  \/ (length (high_risk_merchants (load_data (merchant_with 15))) = 20%nat
      /\ Forall (fun r => Sql.real_leb
                            (rate_pct (merchant_rows
                                         (load_data (merchant_with 15))
                                         "kiosk" "misc_pos"))
                            (HighRiskMerchants.fraud_rate_pct r) = true)
           (high_risk_merchants (load_data (merchant_with 15)))).
Proof.
  apply (proj2 (proj2 (proj2 (high_risk_merchants_top_20
                                (load_data (merchant_with 15)))))).
  - vm_compute. discriminate.
  - vm_compute. reflexivity.
Defined.

(** [fraud_by_state] with a limit [n]: one state to a row; with [n >= 0]
    at most [n] rows; a state of the table is in the report unless the
    report is full with [n] states that have at least as many frauds.
    With a negative [n] every state of the table is reported. *)
Theorem fraud_by_state_top_n (t : list Row) (n : Z) :
  NoDup (map Rate.key (fraud_by_state t n))
  /\ (0 <= n -> Z.of_nat (length (fraud_by_state t n)) <= n)
  /\ Forall (fun r => Rate.total_txns r = Sql.COUNT (state_rows t (Rate.key r))
                      /\ Rate.fraud_txns r = sum_is_fraud (state_rows t (Rate.key r)))
       (fraud_by_state t n)
  /\ (forall s, In s (map (fun r => state (txn r)) t) ->
        (exists r, In r (fraud_by_state t n) /\ Rate.key r = s)
        \/ (Z.of_nat (length (fraud_by_state t n)) = n
            /\ Forall (fun r => Sql.int_leb (sum_is_fraud (state_rows t s))
                                  (Rate.fraud_txns r) = true)
                 (fraud_by_state t n)))
  /\ (n < 0 ->
      forall s, In s (map (fun r => state (txn r)) t) ->
                exists r, In r (fraud_by_state t n) /\ Rate.key r = s).
Proof.
  set (before := fun a b : Rate.row string =>
                   Sql.int_leb (Rate.fraud_txns b) (Rate.fraud_txns a)).
  assert (Htot : forall a b, before a b = false -> before b a = true)
    by (unfold before; intros a b; apply int_leb_total).
  assert (Htrans : forall a b c, before a b = true -> before b c = true ->
                                 before a c = true)
    by (unfold before; intros a b c Hab Hbc; eapply int_leb_trans; eassumption).
  set (key := fun r : Row => state (txn r)).
  change (fraud_by_state t n)
    with (Sql.LIMIT n (Sql.order_by before
                         (map rate_row (Sql.group_by String.eqb key t)))).
  assert (Hin : forall s, In s (map key t) ->
            In (rate_row (s, state_rows t s))
               (map rate_row (Sql.group_by String.eqb key t))).
  { intros s Hs. apply in_map.
    now apply (In_group_by_intro String.eqb key t s String.eqb_eq). }
  repeat apply conj.
  - apply NoDup_map_LIMIT.
    now apply (rate_report_keys String.eqb key before t String.eqb_eq).
  - apply LIMIT_length.
  - apply Forall_forall. intros r H.
    apply In_LIMIT, In_order_by, in_map_iff in H.
    destruct H as [[k g] [<- H]]. apply In_group_by in H.
    destruct H as [-> _]. split; reflexivity.
  - intros s Hs.
    destruct (top_rows before n _ _ Htot Htrans (Hin s Hs)) as [H|[Hlen Hall]].
    + left. exists (rate_row (s, state_rows t s)). split; [exact H | reflexivity].
    + right. split; [exact Hlen | exact Hall].
  - intros Hn s Hs. exists (rate_row (s, state_rows t s)).
    split; [|reflexivity].
    unfold Sql.LIMIT. destruct (Z.ltb_spec n 0); [|lia].
    apply In_order_by. now apply Hin.
Qed.

Lemma fraud_by_state_top_n_witness :
  Z.of_nat (length (fraud_by_state (load_data three_frauds) 15)) <= 15
  /\ exists r, In r (fraud_by_state (load_data three_frauds) (-1))
               /\ Rate.key r = "NY"%string.
Proof.
  split.
  - apply (proj1 (proj2 (fraud_by_state_top_n (load_data three_frauds) 15))).
    discriminate.
  - apply (proj2 (proj2 (proj2 (proj2
             (fraud_by_state_top_n (load_data three_frauds) (-1)))))).
    + reflexivity.
    + simpl. now left.
Defined.

(** ** The derived columns, range by range *)

(** The age group of a loaded row, as the cut hands it out: the ages 1 to
    25 are "18-24", 26 to 35 are "25-34", and so on up to 66 to 120 for
    "65+"; an age of 0 or less, or above 120, has no group. *)
Theorem age_group_ranges (t : Transaction) :
  let a := age (derive t) in
  (age_group (derive t) = Some "18-24"%string <-> 1 <= a <= 25)
  /\ (age_group (derive t) = Some "25-34"%string <-> 26 <= a <= 35)
  /\ (age_group (derive t) = Some "35-44"%string <-> 36 <= a <= 45)
  /\ (age_group (derive t) = Some "45-54"%string <-> 46 <= a <= 55)
  /\ (age_group (derive t) = Some "55-64"%string <-> 56 <= a <= 65)
  /\ (age_group (derive t) = Some "65+"%string <-> 66 <= a <= 120)
  /\ (age_group (derive t) = None <-> a <= 0 \/ 121 <= a).
Proof.
  cbn zeta. rewrite age_group_derive, cut_age_group_spec.
  repeat match goal with
  | |- context [?x <=? ?y] => destruct (Z.leb_spec x y)
  end; repeat split; intros; try discriminate; try reflexivity; try lia.
Qed.

(** The city size of a loaded row: populations 1 to 10000 are rural,
    10001 to 100000 small, 100001 to 500000 mid, and larger ones large; a
    population of 0 or less has no city size. *)
Theorem city_size_ranges (t : Transaction) :
  let n := city_pop t in
  (city_size (derive t) = Some "Rural (<10K)"%string <-> 1 <= n <= 10000)
  /\ (city_size (derive t) = Some "Small (10K-100K)"%string
      <-> 10001 <= n <= 100000)
  /\ (city_size (derive t) = Some "Mid (100K-500K)"%string
      <-> 100001 <= n <= 500000)
  /\ (city_size (derive t) = Some "Large (500K+)"%string <-> 500001 <= n)
  /\ (city_size (derive t) = None <-> n <= 0).
Proof.
  cbn zeta. cbn [derive city_size]. rewrite cut_city_size_spec.
  repeat match goal with
  | |- context [?x <=? ?y] => destruct (Z.leb_spec x y)
  end; repeat split; intros; try discriminate; try reflexivity; try lia.
Qed.

Lemma derive_age_quot (ts born : Z) :
  derive_age ts born = Z.quot (Pandas.dt_days (ts - born) * 100) 36525.
Proof. reflexivity. Qed.

(** The age follows the calendar: it is not negative when the date of
    birth is not after the transaction, it does not decrease when the
    transaction is later, and it does not increase when the date of birth
    is later. *)
Theorem age_monotone (ts1 ts2 born1 born2 : Z) :
  (born1 <= ts1 -> 0 <= derive_age ts1 born1)
  /\ (ts1 <= ts2 -> derive_age ts1 born1 <= derive_age ts2 born1)
  /\ (born1 <= born2 -> derive_age ts1 born2 <= derive_age ts1 born1).
Proof.
  rewrite !derive_age_quot. unfold Pandas.dt_days.
  repeat apply conj; intros H.
  - apply Z.quot_pos; [|lia].
    assert (0 <= (ts1 - born1) / Pandas.ns_per_day)
      by (apply Z.div_pos; [lia | reflexivity]).
    lia.
  - apply Z.quot_le_mono; [lia|].
    assert ((ts1 - born1) / Pandas.ns_per_day <= (ts2 - born1) / Pandas.ns_per_day)
      by (apply Z.div_le_mono; [reflexivity | lia]).
    lia.
  - apply Z.quot_le_mono; [lia|].
    assert ((ts1 - born2) / Pandas.ns_per_day <= (ts1 - born1) / Pandas.ns_per_day)
      by (apply Z.div_le_mono; [reflexivity | lia]).
    lia.
Qed.

Lemma age_monotone_witness :
  0 <= derive_age (day 9132) 0
  /\ derive_age (day 9132) 0 <= derive_age (day 43830) 0
  /\ derive_age (day 9132) (day 1) <= derive_age (day 9132) 0.
Proof.
  refine (conj _ (conj _ _)).
  - apply (proj1 (age_monotone (day 9132) (day 43830) 0 (day 1))).
    discriminate.
  - apply (proj1 (proj2 (age_monotone (day 9132) (day 43830) 0 (day 1)))).
    discriminate.
  - apply (proj2 (proj2 (age_monotone (day 9132) (day 43830) 0 (day 1)))).
    discriminate.
Defined.

(** ** The overview of a table with rows *)


Lemma fraud_overview_call_raises : fraud_overview_call [] = Raised TypeError.
Proof. reflexivity. Qed.




(** ** The samples of the histogram *)

(** The two queries of [plot_amount_distribution] never share a row; with
    flags 0 and 1 they split the table between them, the fraud sample has
    as many amounts as the overview counts frauds, and on a table with
    rows its sum, rounded, is the overview's [total_fraud_amount]. *)
Theorem histogram_samples (t : list Row) :
  (length (legit t) + length (fraud t) <= length t)%nat
  /\ (t <> [] ->
      Overview.total_fraud_amount (fraud_overview t)
      = Some (Sql.round2 (Sql.Qsum (fraud t))))
  /\ (flags_01 t ->
      (length (legit t) + length (fraud t) = length t)%nat
      /\ Z.of_nat (length (fraud t))
         = int_or_0 (Overview.fraud_count (fraud_overview t))).
Proof.
  unfold legit, fraud, select_amt_where_is_fraud. rewrite !length_map.
  repeat apply conj.
  - induction t as [|x t IH]; simpl; [lia|].
    destruct (Z.eqb_spec (is_fraud (txn x)) 0) as [E|E].
    + rewrite E. simpl. lia.
    + destruct (is_fraud (txn x) =? 1); simpl; lia.
  - intros Ht. now apply total_fraud_amount_spec.
  - intros Hf. split.
    + induction Hf as [|x t Hx Ht IH]; simpl; [reflexivity|].
      destruct Hx as [-> | ->]; simpl; lia.
    + cbn [fraud_overview Overview.fraud_count]. rewrite sum_is_fraud_total.
      pose proof (Zsum_flags t Hf) as E. rewrite Zsum_total, total_map in E.
      rewrite E. reflexivity.
Qed.

Lemma histogram_samples_witness :
  Overview.total_fraud_amount (fraud_overview (load_data three_frauds))
  = Some (Sql.round2 (Sql.Qsum (fraud (load_data three_frauds))))
  /\ (length (legit (load_data three_frauds))
      + length (fraud (load_data three_frauds))
      = length (load_data three_frauds))%nat.
Proof.
  split.
  - apply (proj1 (proj2 (histogram_samples (load_data three_frauds)))).
    discriminate.
  - refine (proj1 (proj2 (proj2 (histogram_samples (load_data three_frauds))) _)).
    repeat (constructor; [first [now left | now right]|]). constructor.
Defined.

(** ** Amounts in whole cents *)

Lemma round_half_away_comp (a b : Q) :
  (a == b)%Q -> Sql.round_half_away a = Sql.round_half_away b.
Proof.
  intros E. unfold Sql.round_half_away. rewrite E.
  destruct (Qle_bool 0 b).
  - assert (E' : (a + (1 # 2) == b + (1 # 2))%Q) by now rewrite E.
    now rewrite E'.
  - assert (E' : (a - (1 # 2) == b - (1 # 2))%Q) by now rewrite E.
    now rewrite E'.
Qed.

(** An integer rounds to itself. *)
Lemma round_half_away_Z (c : Z) : Sql.round_half_away (inject_Z c) = c.
Proof.
  unfold Sql.round_half_away, Qceiling, Qfloor, Qle_bool.
  cbn. rewrite !Z.mul_1_r.
  destruct (Z.leb_spec 0 c).
  - symmetry. apply Z.div_unique with (r := 1); lia.
  - replace (- (c * 2 + -1)) with (- c * 2 + 1) by lia.
    assert (E : (- c * 2 + 1) / 2 = - c)
      by (symmetry; apply Z.div_unique with (r := 1); lia).
    rewrite E. lia.
Qed.

(** [ROUND(x, 2)] leaves an amount in whole cents as it is. *)
Lemma round2_cents (q : Q) : is_cents q -> (Sql.round2 q == q)%Q.
Proof.
  intros [c E]. unfold Sql.round2. rewrite Qred_correct.
  assert (E' : (q * 100 == inject_Z c)%Q) by (rewrite E; field).
  rewrite (round_half_away_comp _ _ E'), round_half_away_Z.
  now rewrite E.
Qed.

Lemma is_cents_plus (a b : Q) : is_cents a -> is_cents b -> is_cents (a + b).
Proof.
  intros [c Ec] [d Ed]. exists (c + d). rewrite Ec, Ed, inject_Z_plus. field.
Qed.

Lemma is_cents_fold (l : list Q) (a : Q) :
  is_cents a -> Forall is_cents l -> is_cents (fold_left Qplus l a).
Proof.
  intros Ha Hl. revert a Ha. induction Hl as [|x l Hx Hl IH]; intros a Ha.
  - exact Ha.
  - simpl. apply IH. now apply is_cents_plus.
Qed.

Lemma is_cents_Qsum (l : list Q) : Forall is_cents l -> is_cents (Sql.Qsum l).
Proof.
  intros H. apply is_cents_fold; [|assumption]. exists 0. reflexivity.
Qed.

(** When every amount of the table is in whole cents, rounding changes no
    total of fraud amounts: in the overview of a table with rows, in the
    high-risk-merchants report and in the repeat-fraud-cards report
    [total_fraud_amount] is the exact sum of the fraud amounts of the
    group. *)
Theorem totals_exact_in_cents (t : list Row) :
  Forall (fun r => is_cents (amt (txn r))) t ->
  (t <> [] ->
   exists q, Overview.total_fraud_amount (fraud_overview t) = Some q
             /\ (q == Sql.Qsum (amounts (where_fraud t)))%Q)
  /\ Forall (fun r =>
               exists q, HighRiskMerchants.total_fraud_amount r = Some q
                 /\ (q == Sql.Qsum (amounts (where_fraud
                           (merchant_rows t (HighRiskMerchants.merchant r)
                                            (HighRiskMerchants.category r)))))%Q)
            (high_risk_merchants t)
  /\ Forall (fun r =>
               exists q, RepeatFraudCards.total_fraud_amount r = Some q
                 /\ (q == Sql.Qsum (amounts
                           (card_fraud_rows t (RepeatFraudCards.cc_num r))))%Q)
            (repeat_fraud_cards t).
Proof.
  intros Hc.
  assert (Hsum : forall g, incl g t -> is_cents (Sql.Qsum (amounts g))).
  { intros g Hg. apply is_cents_Qsum. unfold amounts.
    apply Forall_map. rewrite Forall_forall in *. intros r Hr.
    apply Hc, Hg, Hr. }
  refine (conj _ (conj _ _)).
  - intros Ht. eexists. split; [now apply total_fraud_amount_spec|].
    apply round2_cents, Hsum. unfold where_fraud. apply incl_filter.
  - apply Forall_forall. intros r H.
    assert (Hin := H). unfold high_risk_merchants in H.
    apply In_LIMIT, In_order_by, in_map_iff in H.
    destruct H as [[[m c] g] [<- H]]. apply filter_In in H.
    destruct H as [H Hh]. pose proof (In_group_by _ _ _ _ _ H) as [Hg _].
    change (g = merchant_rows t m c) in Hg.
    cbn [merchant_row HighRiskMerchants.total_fraud_amount
         HighRiskMerchants.merchant HighRiskMerchants.category fst snd].
    rewrite <- Hg. eexists. split.
    + apply total_fraud_amount_spec. apply COUNT_not_empty.
      apply andb_true_iff in Hh. cbn [snd] in Hh. lia.
    + apply round2_cents, Hsum. unfold where_fraud.
      eapply incl_tran; [apply incl_filter|]. rewrite Hg. apply incl_filter.
  - apply Forall_forall. intros r H.
    apply repeat_fraud_cards_row in H. destruct H as [_ [E _]].
    eexists. split; [exact E|].
    apply round2_cents, Hsum. apply incl_filter.
Qed.

Lemma totals_exact_in_cents_witness :
  exists q,
    Overview.total_fraud_amount (fraud_overview (load_data three_frauds)) = Some q
    /\ (q == Sql.Qsum (amounts (where_fraud (load_data three_frauds))))%Q.
Proof.
  refine (proj1 (totals_exact_in_cents (load_data three_frauds) _) _).
  - repeat (constructor;
            [ first [ exists 1000; vm_compute; reflexivity
                    | exists 2000; vm_compute; reflexivity
                    | exists 3000; vm_compute; reflexivity
                    | exists 4000; vm_compute; reflexivity
                    | exists 5000; vm_compute; reflexivity
                    | exists 99900; vm_compute; reflexivity ] |]).
    constructor.
  - discriminate.
Defined.

(** ** More on NULL buckets and NULL averages *)

(** A row whose city population is 0 or less gets no city size, and the
    by-city-size report is the same with or without it. *)
Theorem city_out_of_bins_unbucketed (t : Transaction) :
  city_pop t <= 0 ->
  city_size (derive t) = None
  /\ forall l1 l2 : list Transaction,
       fraud_by_city_size (load_data (l1 ++ t :: l2))
       = fraud_by_city_size (load_data (l1 ++ l2)).
Proof.
  intros H.
  assert (E : city_size (derive t) = None).
  { cbn [derive city_size]. rewrite cut_city_size_spec.
    destruct (Z.leb_spec (city_pop t) 0); [reflexivity | lia]. }
  split; [exact E|]. intros l1 l2.
  rewrite !load_data_app. cbn [load_data map].
  now apply fraud_by_city_size_skips.
Qed.

Lemma city_out_of_bins_unbucketed_witness :
  city_size (derive (mkTransaction 0 1 "shop" "misc_pos" 5 0 0 "NY" "F" 0)) = None
  /\ forall l1 l2 : list Transaction,
       fraud_by_city_size
         (load_data (l1 ++ mkTransaction 0 1 "shop" "misc_pos" 5 0 0 "NY" "F" 0
                        :: l2))
       = fraud_by_city_size (load_data (l1 ++ l2)).
Proof.
  apply (city_out_of_bins_unbucketed
           (mkTransaction 0 1 "shop" "misc_pos" 5 0 0 "NY" "F" 0)).
  discriminate.
Defined.

(** In the by-category report [avg_fraud_amt] is NULL for exactly the
    categories that have no fraud row. *)
Theorem avg_fraud_amt_null_iff (t : list Row) :
  Forall (fun r => ByCategory.avg_fraud_amt r = None
                   <-> where_fraud (category_rows t (ByCategory.category r)) = [])
         (fraud_by_category t).
Proof.
  apply Forall_forall. intros r H. unfold fraud_by_category in H.
  apply In_order_by, in_map_iff in H. destruct H as [[k g] [<- H]].
  apply In_group_by in H. destruct H as [-> _].
  cbn [category_row ByCategory.avg_fraud_amt ByCategory.category].
  rewrite AVG_case_fraud_amt. fold (category_rows t k).
  unfold mean_amt. destruct (where_fraud (category_rows t k)); simpl.
  - tauto.
  - split; discriminate.
Qed.

(** ** Which rows an average and a total are taken over *)






(** ** The empty data set *)

(** C8 (counterexample).  On a data set without rows nothing is reported:
    [load_data] raises, and on an empty table [fraud_overview] raises as
    well, the rate of its query being NULL and not 0. *)
Lemma overview_raises_on_empty :
  load_data_call [] = Raised AttributeError
  /\ fraud_overview_call [] = Raised TypeError
  /\ Overview.fraud_rate_pct (fraud_overview []) = None.
Proof. repeat split. Qed.

(** C8 (amended).  On a data set without rows [load_data] raises and no
    report is computed.  On an empty table the query of the overview
    gives the count [total_txns = 0] and NULL in every other column, on
    which [fraud_overview] raises instead of printing; each of the eleven
    grouped reports returns no row. *)
Theorem reports_on_empty_table :
  load_data_call [] = Raised AttributeError
  /\ fraud_overview []
     = {| Overview.total_txns := 0;
          Overview.fraud_count := None;
          Overview.fraud_rate_pct := None;
          Overview.avg_amount := None;
          Overview.total_fraud_amount := None |}
  /\ fraud_overview_call [] = Raised TypeError
  /\ fraud_by_category [] = []
  /\ fraud_by_hour [] = []
  /\ fraud_by_day_of_week [] = []
  /\ fraud_by_amount_bucket [] = []
  /\ (forall n, fraud_by_state [] n = [])
  /\ fraud_by_gender [] = []
  /\ fraud_by_age_group [] = []
  /\ fraud_by_city_size [] = []
  /\ repeat_fraud_cards [] = []
  /\ high_risk_merchants [] = []
  /\ fraud_trend_monthly [] = [].
Proof.
  repeat split. intros n. unfold fraud_by_state, Sql.LIMIT. simpl.
  destruct (n <? 0); [reflexivity | now destruct (Z.to_nat n)].
Qed.
